(** * ai_tools: the tool dispatcher and its six mock tools

    A shallow embedding of [api/ai_tools.py] (the serverless variant with
    mock tools) and of the dispatcher of [ai_tools.py] (the Flask variant
    backed by inference pipelines).

    Modelling conventions.
    - A Python [str] is a [string]; the text operations ([lower], [split],
      [strip], [capitalize], ...) are the ones Python performs on ASCII
      text.  Characters above 127 are left alone by the case mappings and
      are never white space.
    - The floats of the mock tools are two-decimal constants (0.50, 0.60,
      0.87, ...).  They are kept as exact numbers of ten-thousandths
      (0.95 is 9500), and [format_pct] prints them the way ["{:.2%}"]
      does; the binary rounding error of the float sum [0.60 + n * 0.1] is
      far below the half unit of the last printed digit.
    - The [random] module is a tape of draws: [randbelow n] consumes one
      draw and reduces it below [n].
    - Exceptions are values: a computation returns [Ret v] or [Raise e].  *)

From Stdlib Require Import Ascii NArith ZArith Lia.
From stdpp Require Import base gmap sets list sorting strings pretty.

(** ** Exceptions *)

Record exn := Exn { exn_type : string; exn_msg : string }.

Inductive exc (A : Type) : Type :=
| Ret (a : A)
| Raise (e : exn).
Arguments Ret {A} a.
Arguments Raise {A} e.

Definition exc_bind {A B} (m : exc A) (k : A → exc B) : exc B :=
  match m with
  | Ret a => k a
  | Raise e => Raise e
  end.

(** ** Python strings *)

Module PyStr.

(** [str.isspace] on one character. *)
Definition isspace (c : ascii) : bool :=
  let n := N_of_ascii c in
  ((9 <=? n) && (n <=? 13) || (28 <=? n) && (n <=? 32))%N.

Definition lower_char (c : ascii) : ascii :=
  let n := N_of_ascii c in
  if ((65 <=? n) && (n <=? 90))%N then ascii_of_N (n + 32) else c.

Definition upper_char (c : ascii) : ascii :=
  let n := N_of_ascii c in
  if ((97 <=? n) && (n <=? 122))%N then ascii_of_N (n - 32) else c.

Fixpoint map_chars (f : ascii → ascii) (s : string) : string :=
  match s with
  | EmptyString => EmptyString
  | String c r => String (f c) (map_chars f r)
  end.

(** [s.lower()] *)
Definition lower (s : string) : string := map_chars lower_char s.

(** [s.capitalize()]: first character upper case, the rest lower case. *)
Definition capitalize (s : string) : string :=
  match s with
  | EmptyString => EmptyString
  | String c r => String (upper_char c) (lower r)
  end.

(** [s.replace(old, new)] for one-character [old] and [new]. *)
Definition replace (old new : ascii) (s : string) : string :=
  map_chars (λ c, if decide (c = old) then new else c) s.

(** [s.split(sep)] for a one-character separator: one piece more than
    there are separators, empty pieces kept. *)
Fixpoint split (sep : ascii) (s : string) : list string :=
  match s with
  | EmptyString => [EmptyString]
  | String c r =>
      if decide (c = sep) then EmptyString :: split sep r
      else match split sep r with
           | p :: ps => String c p :: ps
           | [] => [String c EmptyString]
           end
  end.

(** [s.split()]: the maximal runs of characters that are not white
    space.  [cur] is the run being read, in reading order. *)
Fixpoint split_ws_go (cur : string) (s : string) : list string :=
  match s with
  | EmptyString => if decide (cur = EmptyString) then [] else [cur]
  | String c r =>
      if isspace c
      then if decide (cur = EmptyString) then split_ws_go EmptyString r
           else cur :: split_ws_go EmptyString r
      else split_ws_go (cur +:+ String c EmptyString) r
  end.
Definition split_ws (s : string) : list string := split_ws_go EmptyString s.

Fixpoint lstrip (s : string) : string :=
  match s with
  | EmptyString => EmptyString
  | String c r => if isspace c then lstrip r else s
  end.

Fixpoint rstrip (s : string) : string :=
  match s with
  | EmptyString => EmptyString
  | String c r =>
      match rstrip r with
      | EmptyString => if isspace c then EmptyString else String c EmptyString
      | r' => String c r'
      end
  end.

(** [s.strip()] *)
Definition strip (s : string) : string := rstrip (lstrip s).

(** [sep.join(l)] *)
Fixpoint join (sep : string) (l : list string) : string :=
  match l with
  | [] => EmptyString
  | [x] => x
  | x :: rest => x +:+ sep +:+ join sep rest
  end.

Fixpoint kwarg (name : string) (kwargs : list (string * string)) : option string :=
  match kwargs with
  | [] => None
  | (k, v) :: rest => if decide (k = name) then Some v else kwarg name rest
  end.

(** [template.format(name=value, ...)] for templates whose replacement fields
    are plain names ([{topic}]), with [{{] and [}}] for literal braces.
    [field] is [Some name] while a replacement field is being read. *)
Fixpoint format_go (kwargs : list (string * string)) (field : option string)
    (t : string) : exc string :=
  match t with
  | EmptyString =>
      match field with
      | None => Ret EmptyString
      | Some _ => Raise (Exn "ValueError" "expected '}' before end of string")
      end
  | String c r =>
      match field with
      | Some name =>
          if decide (c = "}"%char) then
            match kwarg name kwargs with
            | Some v => exc_bind (format_go kwargs None r) (λ s, Ret (v +:+ s))
            | None => Raise (Exn "KeyError" ("'" +:+ name +:+ "'"))
            end
          else format_go kwargs (Some (name +:+ String c EmptyString)) r
      | None =>
          if decide (c = "{"%char) then
            match r with
            | String "{"%char r' =>
                exc_bind (format_go kwargs None r') (λ s, Ret (String "{"%char s))
            | _ => format_go kwargs (Some EmptyString) r
            end
          else if decide (c = "}"%char) then
            match r with
            | String "}"%char r' =>
                exc_bind (format_go kwargs None r') (λ s, Ret (String "}"%char s))
            | _ => Raise (Exn "ValueError" "Single '}' encountered in format string")
            end
          else exc_bind (format_go kwargs None r) (λ s, Ret (String c s))
      end
  end.
Definition format (template : string) (kwargs : list (string * string)) : exc string :=
  format_go kwargs None template.

(** [c in s] for a character [c]. *)
Fixpoint has_char (c : ascii) (s : string) : bool :=
  match s with
  | EmptyString => false
  | String c' r => if decide (c' = c) then true else has_char c r
  end.

(** [needle in s] as a proposition. *)
Definition contains (s needle : string) : Prop :=
  ∃ pre post, s = pre +:+ needle +:+ post.

End PyStr.

(** ** Python values *)

(** What [json.loads] can produce.  A float is kept as its [repr]. *)
#[warnings="-register-all"]
Inductive pyval : Type :=
| PNone
| PBool (b : bool)
| PInt (z : Z)
| PFloat (repr : string)
| PStr (s : string)
| PList (l : list pyval)
| PDict (d : list (string * pyval)).

Module PyVal.

(** [type(v).__name__] *)
Definition type_name (v : pyval) : string :=
  match v with
  | PNone => "NoneType"
  | PBool _ => "bool"
  | PInt _ => "int"
  | PFloat _ => "float"
  | PStr _ => "str"
  | PList _ => "list"
  | PDict _ => "dict"
  end.

(** Looking up an attribute that the type does not have. *)
Definition no_attribute (v : pyval) (attr : string) : exn :=
  Exn "AttributeError"
      ("'" +:+ type_name v +:+ "' object has no attribute '" +:+ attr +:+ "'").

Definition hex_digit (n : N) : ascii :=
  if (n <? 10)%N then ascii_of_N (48 + n) else ascii_of_N (87 + n).

Definition hex2 (c : ascii) : string :=
  let n := N_of_ascii c in
  String (hex_digit (n / 16)) (String (hex_digit (n mod 16)) EmptyString).

Fixpoint repr_chars (quote : ascii) (s : string) : string :=
  match s with
  | EmptyString => EmptyString
  | String c r =>
      let n := N_of_ascii c in
      (if decide (c = quote) then String "\"%char (String c EmptyString)
       else if decide (c = "\"%char) then "\\"
       else if decide (c = "009"%char) then "\t"
       else if decide (c = "010"%char) then "\n"
       else if decide (c = "013"%char) then "\r"
       else if ((n <? 32) || (n =? 127))%N then "\x" +:+ hex2 c
       else String c EmptyString) +:+ repr_chars quote r
  end.

(** [repr(s)] of a string: single quotes, unless the text has a single
    quote and no double quote. *)
Definition str_repr (s : string) : string :=
  let quote := if PyStr.has_char "'"%char s && negb (PyStr.has_char "034"%char s)
               then "034"%char else "'"%char in
  String quote (repr_chars quote s) +:+ String quote EmptyString.

Fixpoint repr (v : pyval) : string :=
  match v with
  | PNone => "None"
  | PBool true => "True"
  | PBool false => "False"
  | PInt z => pretty z
  | PFloat r => r
  | PStr s => str_repr s
  | PList l => "[" +:+ PyStr.join ", " (map repr l) +:+ "]"
  | PDict d =>
      "{" +:+ PyStr.join ", " (map (λ kv, str_repr kv.1 +:+ ": " +:+ repr kv.2) d) +:+ "}"
  end.

(** [str(v)], which is also what an f-string or [format] field prints. *)
Definition str (v : pyval) : string :=
  match v with
  | PStr s => s
  | _ => repr v
  end.

(** [d.get(key)] on a decoded JSON object: the value, or [None]. *)
Fixpoint dict_get (d : list (string * pyval)) (key : string) : pyval :=
  match d with
  | [] => PNone
  | (k, v) :: rest => if decide (k = key) then v else dict_get rest key
  end.

(** [v.get(key)] on any value: only a dict has the method. *)
Definition get (v : pyval) (key : string) : exc pyval :=
  match v with
  | PDict d => Ret (dict_get d key)
  | _ => Raise (no_attribute v "get")
  end.

Definition json_char (c : ascii) : string :=
  let n := N_of_ascii c in
  if decide (c = "034"%char) then String "\"%char (String c EmptyString)
  else if decide (c = "\"%char) then "\\"
  else if decide (c = "010"%char) then "\n"
  else if decide (c = "013"%char) then "\r"
  else if decide (c = "009"%char) then "\t"
  else if decide (c = "012"%char) then "\f"
  else if decide (c = "008"%char) then "\b"
  else if ((n <? 32) || (126 <? n))%N then "\u00" +:+ hex2 c
  else String c EmptyString.

Fixpoint json_chars (s : string) : string :=
  match s with
  | EmptyString => EmptyString
  | String c r => json_char c +:+ json_chars r
  end.

Definition json_string (s : string) : string :=
  String "034"%char (json_chars s) +:+ String "034"%char EmptyString.

(** [json.dumps(v)] with the default separators and [ensure_ascii]. *)
Fixpoint json_dumps (v : pyval) : string :=
  match v with
  | PNone => "null"
  | PBool true => "true"
  | PBool false => "false"
  | PInt z => pretty z
  | PFloat r => r
  | PStr s => json_string s
  | PList l => "[" +:+ PyStr.join ", " (map json_dumps l) +:+ "]"
  | PDict d =>
      "{" +:+ PyStr.join ", "
                (map (λ kv, json_string kv.1 +:+ ": " +:+ json_dumps kv.2) d) +:+ "}"
  end.

(** Only lists and dicts, among decoded JSON values, cannot be hashed. *)
Definition hashable (v : pyval) : bool :=
  match v with
  | PList _ | PDict _ => false
  | _ => true
  end.

Definition unhashable (v : pyval) : exn :=
  Exn "TypeError" ("unhashable type: '" +:+ type_name v +:+ "'").

Fixpoint assoc {V} (d : list (string * V)) (key : string) : option V :=
  match d with
  | [] => None
  | (k, v) :: rest => if decide (k = key) then Some v else assoc rest key
  end.

(** [key in d] for a dict [d] with string keys: the key is hashed, and
    only a string can be equal to one of the keys. *)
Definition dict_contains {V} (d : list (string * V)) (key : pyval) : exc bool :=
  match key with
  | PStr s => Ret (bool_decide (is_Some (assoc d s)))
  | _ => if hashable key then Ret false else Raise (unhashable key)
  end.

(** [d[key]] *)
Definition dict_item {V} (d : list (string * V)) (key : pyval) : exc V :=
  match key with
  | PStr s =>
      match assoc d s with
      | Some v => Ret v
      | None => Raise (Exn "KeyError" (repr key))
      end
  | _ => if hashable key then Raise (Exn "KeyError" (repr key))
         else Raise (unhashable key)
  end.

(** [list(d.keys())]: the keys in insertion order. *)
Definition dict_keys {V} (d : list (string * V)) : pyval := PList (PStr <$> d.*1).

(** ["{:.2%}".format(x)] for [x] given in ten-thousandths. *)
Definition format_pct (x : N) : string :=
  let frac := (x mod 100)%N in
  pretty (x / 100)%N +:+ "." +:+ pretty (frac / 10)%N +:+ pretty (frac mod 10)%N +:+ "%".

End PyVal.

(** ** State and exceptions

    A computation reads and updates a state and returns a value or raises;
    the state reached when it raises is kept, as in Python. *)

Definition M (S A : Type) : Type := S → exc A * S.

Definition ret {S A} (a : A) : M S A := λ s, (Ret a, s).
Definition raise {S A} (e : exn) : M S A := λ s, (Raise e, s).
Definition bind {S A B} (m : M S A) (k : A → M S B) : M S B :=
  λ s, match m s with
       | (Ret a, s') => k a s'
       | (Raise e, s') => (Raise e, s')
       end.
Definition lift_exc {S A} (r : exc A) : M S A := λ s, (r, s).

Notation "'let*' x ':=' m 'in' k" := (bind m (λ x, k))
  (at level 10, x name, m at level 100, k at level 200).

(** ** The random module *)

Module Random.

Definition rng : Type := list nat.

(** [_randbelow(n)]: a draw in [range(n)]. *)
Definition randbelow (n : nat) : M rng nat :=
  λ g, match g with
       | [] => (Ret 0, [])
       | x :: g' => (Ret (x mod n), g')
       end.

(** [random.choice(seq)] *)
Definition choice {A} (seq : list A) : M rng A :=
  if decide (length seq = 0)
  then raise (Exn "IndexError" "Cannot choose from an empty sequence")
  else let* i := randbelow (length seq) in
       match seq !! i with
       | Some x => ret x
       | None => raise (Exn "IndexError" "list index out of range")
       end.

(** The loop of [random.sample] over its pool: with [m] elements left,
    draw [j], output [pool[j]] and move [pool[m - 1]] into its place. *)
Fixpoint sample_pool {A} (pool : list A) (m k : nat) : M rng (list A) :=
  match k with
  | 0 => ret []
  | S k' =>
      let* j := randbelow m in
      match pool !! j, pool !! (m - 1) with
      | Some x, Some last =>
          let* rest := sample_pool (<[j := last]> pool) (m - 1) k' in
          ret (x :: rest)
      | _, _ => raise (Exn "IndexError" "list index out of range")
      end
  end.

(** [random.sample(population, k)], for the populations of at most 21
    elements that the library samples through a pool. *)
Definition sample {A} (population : list A) (k : nat) : M rng (list A) :=
  if decide (k ≤ length population)
  then sample_pool population (length population) k
  else raise (Exn "ValueError" "Sample larger than population or is negative").

End Random.

(** [sorted(l, key=key, reverse=True)]: stable, largest key first. *)
Fixpoint insert_desc {A} (key : A → N) (x : A) (l : list A) : list A :=
  match l with
  | [] => [x]
  | y :: r => if (key y <=? key x)%N then x :: l else y :: insert_desc key x r
  end.
Definition sorted_desc {A} (key : A → N) (l : list A) : list A :=
  foldr (insert_desc key) [] l.

(** The newline of the Python literals. *)
Definition nl : string := String "010"%char EmptyString.

(** * The serverless variant: [api/ai_tools.py] *)

Module Mock.

(** The six tool classes, an object being its class and its fields. *)
Inductive tool : Type :=
| SemanticsAnalyzer (positive_words negative_words : gset string)
| ImageClassifier
| TextSummarizer
| JokeGenerator (templates : list string)
| HaikuWriter (templates : list string)
| QuestionAnswerer (answers : list string).

(** The constructors, [__init__]. *)
Definition positive_words : gset string :=
  list_to_set ["good"; "great"; "excellent"; "amazing"; "wonderful"; "happy";
               "love"; "best"; "fantastic"].
Definition negative_words : gset string :=
  list_to_set ["bad"; "terrible"; "awful"; "horrible"; "hate"; "worst"; "poor";
               "sad"; "disappointing"].

Definition new_SemanticsAnalyzer : tool :=
  SemanticsAnalyzer positive_words negative_words.

Definition joke_templates : list string :=
  [ "Why did the {topic} cross the road? To get to the other side!";
    "What do you call a {topic} that can't stop talking? A chatter-{topic}!";
    "How many {topic}s does it take to change a lightbulb? Just one, but it takes forever!";
    "A {topic} walks into a bar. The bartender says, 'We don't serve {topic}s here!'";
    "What's a {topic}'s favorite type of music? Anything with a good beat!" ].

Definition new_JokeGenerator : tool := JokeGenerator joke_templates.

Definition haiku_templates : list string :=
  [ "{topic} shines bright
In the quiet morning light
Peace fills the new day";
    "Dancing {topic}
Whispers secrets to the wind
Nature's gentle song";
    "{topic} stands tall
Silent witness to the world
Timeless and serene" ].

Definition new_HaikuWriter : tool := HaikuWriter haiku_templates.

Definition question_answers : list string :=
  [ "Because that's how nature designed it to work.";
    "Because it helps maintain balance in the system.";
    "Because of scientific principles we're still discovering.";
    "Because that's what makes it unique and special.";
    "Because evolution favored this adaptation over time." ].

Definition new_QuestionAnswerer : tool := QuestionAnswerer question_answers.

(** The value every [process_query] returns: [{"result": text}]. *)
Definition result_dict (text : string) : pyval := PDict [("result", PStr text)].

(** The label and the confidence (in ten-thousandths) chosen from the
    two counts. *)
Definition sentiment (pos_count neg_count : nat) : string * N :=
  if decide (neg_count < pos_count) then
    ("POSITIVE", N.min 9500 (6000 + N.of_nat pos_count * 1000))
  else if decide (pos_count < neg_count) then
    ("NEGATIVE", N.min 9500 (6000 + N.of_nat neg_count * 1000))
  else ("NEUTRAL", 5000%N).

(** [set(text_input.lower().split())] *)
Definition words_of (text_input : string) : gset string :=
  list_to_set (PyStr.split_ws (PyStr.lower text_input)).

Definition SemanticsAnalyzer_process_query (positive_words negative_words : gset string)
    (text_input : pyval) : M Random.rng pyval :=
  match text_input with
  | PStr text =>
      let words := words_of text in
      let pos_count := size (words ∩ positive_words) in
      let neg_count := size (words ∩ negative_words) in
      let '(label, confidence) := sentiment pos_count neg_count in
      ret (result_dict ("Sentiment: " +:+ label +:+ " (confidence: "
                          +:+ PyVal.format_pct confidence +:+ ")"))
  | _ => raise (PyVal.no_attribute text_input "lower")
  end.

Definition categories : list (string * N) :=
  [ ("cat", 8700); ("dog", 7200); ("bird", 6500);
    ("landscape", 7800); ("food", 8100); ("person", 6900) ]%N.

Definition label_line (c : string * N) : string :=
  "- " +:+ c.1 +:+ ": " +:+ PyVal.format_pct c.2 +:+ nl.

(** The loop that appends one line per element to [result_text]. *)
Definition label_lines (l : list (string * N)) : string :=
  foldl (λ result_text c, result_text +:+ label_line c) ("I see:" +:+ nl) l.

Definition ImageClassifier_process_query (image_data : pyval) : M Random.rng pyval :=
  let* selected := Random.sample categories 3 in
  ret (result_dict (label_lines (sorted_desc snd selected))).

(** The stripped, non-empty pieces between sentence terminators. *)
Definition sentences_of (text_input : string) : list string :=
  let sentences :=
    PyStr.split "."%char (PyStr.replace "?"%char "."%char
                            (PyStr.replace "!"%char "."%char text_input)) in
  PyStr.strip <$> filter (λ s, PyStr.strip s ≠ EmptyString) sentences.

Definition summarize (text_input : string) : string :=
  let sentences := sentences_of text_input in
  let summary_count := 3 `min` (1 `max` (length sentences `div` 3)) in
  PyStr.join ". " (take summary_count sentences) +:+ ".".

(** The input has one of the characters that end a sentence. *)
Definition has_terminator (text_input : string) : bool :=
  PyStr.has_char "."%char text_input || PyStr.has_char "!"%char text_input
  || PyStr.has_char "?"%char text_input.

(** What every element of [sentences_of] is: stripped, not empty, and
    without a sentence terminator. *)
Definition is_sentence (s : string) : Prop :=
  PyStr.strip s = s ∧ s ≠ EmptyString ∧
  PyStr.has_char "."%char s = false ∧ PyStr.has_char "!"%char s = false ∧
  PyStr.has_char "?"%char s = false.

Definition TextSummarizer_process_query (text_input : pyval) : M Random.rng pyval :=
  match text_input with
  | PStr text => ret (result_dict (summarize text))
  | _ => raise (PyVal.no_attribute text_input "replace")
  end.

Definition JokeGenerator_process_query (templates : list string)
    (text_input : pyval) : M Random.rng pyval :=
  let* template := Random.choice templates in
  let* joke := lift_exc (PyStr.format template [("topic", PyVal.str text_input)]) in
  ret (result_dict ("Here's a funny joke about " +:+ PyVal.str text_input
                      +:+ ":" +:+ nl +:+ joke)).

Definition HaikuWriter_process_query (templates : list string)
    (text_input : pyval) : M Random.rng pyval :=
  let* template := Random.choice templates in
  match text_input with
  | PStr text =>
      let* haiku := lift_exc (PyStr.format template [("topic", PyStr.capitalize text)]) in
      ret (result_dict ("Write a haiku (5-7-5 syllables) about " +:+ text
                          +:+ ":" +:+ nl +:+ haiku))
  | _ => raise (PyVal.no_attribute text_input "capitalize")
  end.

Definition QuestionAnswerer_process_query (answers : list string)
    (text_input : pyval) : M Random.rng pyval :=
  let* answer := Random.choice answers in
  ret (result_dict ("Question: " +:+ PyVal.str text_input +:+ nl
                      +:+ "Answer: " +:+ answer)).

(** [tool.process_query(input)]: the method of the object's class. *)
Definition process_query (t : tool) (input : pyval) : M Random.rng pyval :=
  match t with
  | SemanticsAnalyzer pos neg => SemanticsAnalyzer_process_query pos neg input
  | ImageClassifier => ImageClassifier_process_query input
  | TextSummarizer => TextSummarizer_process_query input
  | JokeGenerator templates => JokeGenerator_process_query templates input
  | HaikuWriter templates => HaikuWriter_process_query templates input
  | QuestionAnswerer answers => QuestionAnswerer_process_query answers input
  end.

(** *** The registry and the handler *)

(** The module-level state: the global [tools], the state of [random],
    and a log of the [process_query] calls made so far.  The log is not
    in the program; it records each call at the place where the handler
    makes it. *)
Record world := World {
  tools : list (string * tool);
  rng : Random.rng;
  invoked : list (pyval * pyval)
}.

(** The registry as the module builds it. *)
Definition registry : list (string * tool) :=
  [ ("semantics", new_SemanticsAnalyzer);
    ("image-classifier", ImageClassifier);
    ("summarizer", TextSummarizer);
    ("joke", new_JokeGenerator);
    ("haiku", new_HaikuWriter);
    ("question", new_QuestionAnswerer) ].

Definition startup (g : Random.rng) : world :=
  {| tools := registry; rng := g; invoked := [] |}.

Definition get_tools : M world (list (string * tool)) := λ w, (Ret (tools w), w).

(** The call [tool.process_query(user_input)] made for [tool_name]. *)
Definition invoke (tool_name : pyval) (t : tool) (user_input : pyval) : M world pyval :=
  λ w, let '(r, g) := process_query t user_input (rng w) in
       (r, {| tools := tools w; rng := g;
              invoked := invoked w ++ [(tool_name, user_input)] |}).

(** A request: its method, and what [json.loads(request.body.decode())]
    gives for its body, a value or an exception. *)
Record request := Request {
  method : string;
  body_json : exc pyval
}.

(** The dict the handler returns. *)
Record response := Response {
  statusCode : nat;
  headers : option (list (string * string));
  body : string
}.

Definition json_headers : option (list (string * string)) :=
  Some [("Content-Type", "application/json")].

(** The [try] block of [handler]. *)
Definition handler_try (req : request) : M world response :=
  if decide (method req = "POST") then
    let* body := lift_exc (body_json req) in
    let* tool_name := lift_exc (PyVal.get body "tool") in
    let* user_input := lift_exc (PyVal.get body "input") in
    let* tools := get_tools in
    let* known := lift_exc (PyVal.dict_contains tools tool_name) in
    if negb known then
      ret {| statusCode := 400; headers := None;
             body := PyVal.json_dumps
                       (PDict [("error", PStr ("Unknown tool: " +:+ PyVal.str tool_name))]) |}
    else
      let* tool := lift_exc (PyVal.dict_item tools tool_name) in
      let* result := invoke tool_name tool user_input in
      ret {| statusCode := 200; headers := json_headers;
             body := PyVal.json_dumps result |}
  else if decide (method req = "GET") then
    let* tools := get_tools in
    ret {| statusCode := 200; headers := json_headers;
           body := PyVal.json_dumps
                     (PDict [("status", PStr "ok");
                             ("available_tools", PyVal.dict_keys tools)]) |}
  else
    ret {| statusCode := 405; headers := None; body := "Method Not Allowed" |}.

(** [handler]: the [try] block, with [except Exception as e]. *)
Definition handler (req : request) (w : world) : response * world :=
  match handler_try req w with
  | (Ret resp, w') => (resp, w')
  | (Raise e, w') =>
      ({| statusCode := 500; headers := None;
          body := PyVal.json_dumps (PDict [("error", PStr (exn_msg e))]) |}, w')
  end.

(** A POST request whose body decodes to the JSON object [d]. *)
Definition post (d : list (string * pyval)) : request :=
  {| method := "POST"; body_json := Ret (PDict d) |}.

(** The response of the [except] branch for the exception [e]. *)
Definition server_error (e : exn) : response :=
  {| statusCode := 500; headers := None;
     body := PyVal.json_dumps (PDict [("error", PStr (exn_msg e))]) |}.

(** The server handling a sequence of requests. *)
Fixpoint serve (reqs : list request) (w : world) : world :=
  match reqs with
  | [] => w
  | req :: rest => serve rest (handler req w).2
  end.

End Mock.

(** * The Flask variant: [ai_tools.py] *)

Module Real.

Inductive tool_class : Type :=
| SemanticsAnalyzer
| ImageClassifier
| TextSummarizer
| JokeGenerator
| HaikuWriter
| QuestionAnswerer.

(** What Flask sends back: the status and the value given to [jsonify]. *)
Record response := Response {
  status : nat;
  json : pyval
}.

(** The response of the [except] branch for the exception [e]. *)
Definition server_error (e : exn) : response :=
  {| status := 500; json := PDict [("error", PStr (exn_msg e))] |}.

Section Backend.

(** Each [process_query] of this variant loads a [transformers]
    pipeline on first use, stores it in the object and runs it.  The
    library is not part of the repository: the state of the six
    objects and of the library is [backend], and the behaviour of the
    method is the parameter [process_query]. *)
Variable backend : Type.
Variable process_query : tool_class → pyval → M backend pyval.

Record world := World {
  tools : list (string * tool_class);
  models : backend;
  invoked : list (pyval * pyval)
}.

Definition registry : list (string * tool_class) :=
  [ ("semantics", SemanticsAnalyzer);
    ("image-classifier", ImageClassifier);
    ("summarizer", TextSummarizer);
    ("joke", JokeGenerator);
    ("haiku", HaikuWriter);
    ("question", QuestionAnswerer) ].

Definition startup (b : backend) : world :=
  {| tools := registry; models := b; invoked := [] |}.

Definition get_tools : M world (list (string * tool_class)) :=
  λ w, (Ret (tools w), w).

Definition invoke (tool_name : pyval) (t : tool_class) (user_input : pyval)
    : M world pyval :=
  λ w, let '(r, b) := process_query t user_input (models w) in
       (r, {| tools := tools w; models := b;
              invoked := invoked w ++ [(tool_name, user_input)] |}).

(** The [try] block of [process_request]; [data] is what
    [request.json] gives, a value or an exception. *)
Definition process_request_try (data : exc pyval) : M world response :=
  let* data := lift_exc data in
  let* tool_name := lift_exc (PyVal.get data "tool") in
  let* user_input := lift_exc (PyVal.get data "input") in
  let* tools := get_tools in
  let* known := lift_exc (PyVal.dict_contains tools tool_name) in
  if negb known then
    ret {| status := 400;
           json := PDict [("error", PStr ("Unknown tool: " +:+ PyVal.str tool_name))] |}
  else
    let* tool := lift_exc (PyVal.dict_item tools tool_name) in
    let* result := invoke tool_name tool user_input in
    ret {| status := 200; json := result |}.

Definition process_request (data : exc pyval) (w : world) : response * world :=
  match process_request_try data w with
  | (Ret resp, w') => (resp, w')
  | (Raise e, w') =>
      ({| status := 500; json := PDict [("error", PStr (exn_msg e))] |}, w')
  end.

Definition health_check (w : world) : response * world :=
  ({| status := 200;
      json := PDict [("status", PStr "ok");
                     ("available_tools", PyVal.dict_keys (tools w))] |}, w).

Fixpoint serve (reqs : list (exc pyval)) (w : world) : world :=
  match reqs with
  | [] => w
  | data :: rest => serve rest (process_request data w).2
  end.

End Backend.

End Real.

(** ** The tools of the Flask variant *)

(** Python operations that only these tools use. *)
Module PyOps.

Definition not_subscriptable (v : pyval) : exn :=
  Exn "TypeError" ("'" +:+ PyVal.type_name v +:+ "' object is not subscriptable").

Definition not_iterable (v : pyval) : exn :=
  Exn "TypeError" ("'" +:+ PyVal.type_name v +:+ "' object is not iterable").

(** [v[i]] for an index [i] that is not negative.  The keys of the dicts
    of this model are strings, so an integer is never one of them. *)
Definition item (v : pyval) (i : nat) : exc pyval :=
  match v with
  | PList l =>
      match l !! i with
      | Some x => Ret x
      | None => Raise (Exn "IndexError" "list index out of range")
      end
  | PStr s =>
      match String.get i s with
      | Some c => Ret (PStr (String c EmptyString))
      | None => Raise (Exn "IndexError" "string index out of range")
      end
  | PDict _ => Raise (Exn "KeyError" (pretty i))
  | _ => Raise (not_subscriptable v)
  end.

(** [v[key]] for a string [key]. *)
Definition item_key (v : pyval) (key : string) : exc pyval :=
  match v with
  | PDict d =>
      match PyVal.assoc d key with
      | Some x => Ret x
      | None => Raise (Exn "KeyError" (PyVal.str_repr key))
      end
  | PList _ => Raise (Exn "TypeError" "list indices must be integers or slices, not str")
  | PStr _ => Raise (Exn "TypeError" "string indices must be integers, not 'str'")
  | _ => Raise (not_subscriptable v)
  end.

Definition is_str (s : string) (v : pyval) : bool :=
  match v with
  | PStr s' => bool_decide (s' = s)
  | _ => false
  end.

(** [c in v] for a one-character string [c]: a substring of a string, an
    element of a list, a key of a dict. *)
Definition contains_char (c : ascii) (v : pyval) : exc bool :=
  match v with
  | PStr s => Ret (PyStr.has_char c s)
  | PList l => Ret (existsb (is_str (String c EmptyString)) l)
  | PDict d => Ret (existsb (λ kv, bool_decide (kv.1 = String c EmptyString)) d)
  | _ => Raise (Exn "TypeError"
                    ("argument of type '" +:+ PyVal.type_name v +:+ "' is not iterable"))
  end.

(** [v.split(sep)]: only a string has the method. *)
Definition split (sep : ascii) (v : pyval) : exc (list string) :=
  match v with
  | PStr s => Ret (PyStr.split sep s)
  | _ => Raise (PyVal.no_attribute v "split")
  end.

Fixpoint chars (s : string) : list pyval :=
  match s with
  | EmptyString => []
  | String c r => PStr (String c EmptyString) :: chars r
  end.

(** What [for x in v] goes through. *)
Definition iterate (v : pyval) : exc (list pyval) :=
  match v with
  | PList l => Ret l
  | PStr s => Ret (chars s)
  | PDict d => Ret (PStr <$> d.*1)
  | _ => Raise (not_iterable v)
  end.

End PyOps.

Module RealTools.

#[global] Instance tool_class_eq_dec : EqDecision Real.tool_class.
Proof. solve_decision. Defined.

(** The three strings in which the six [init_model] methods differ: the
    name in the two messages, the task and the model given to
    [pipeline]. *)
Definition display_name (c : Real.tool_class) : string :=
  match c with
  | Real.SemanticsAnalyzer => "Semantics Analyzer"
  | Real.ImageClassifier => "Image Classifier"
  | Real.TextSummarizer => "Text Summarizer"
  | Real.JokeGenerator => "Joke Generator"
  | Real.HaikuWriter => "Haiku Writer"
  | Real.QuestionAnswerer => "Question Answerer"
  end.

Definition pipeline_task (c : Real.tool_class) : string :=
  match c with
  | Real.SemanticsAnalyzer => "sentiment-analysis"
  | Real.ImageClassifier => "image-classification"
  | Real.TextSummarizer => "summarization"
  | Real.JokeGenerator | Real.HaikuWriter | Real.QuestionAnswerer => "text-generation"
  end.

Definition pipeline_model (c : Real.tool_class) : option string :=
  match c with
  | Real.SemanticsAnalyzer => None
  | Real.ImageClassifier => Some "google/vit-base-patch16-224"
  | Real.TextSummarizer => Some "facebook/bart-large-cnn"
  | Real.JokeGenerator | Real.HaikuWriter | Real.QuestionAnswerer => Some "gpt2"
  end.

Section Library.

(** What the program imports and does not define: [pipeline] of
    [transformers], which loads a model; the call of a loaded model on a
    text or an image with keyword arguments, whose result is taken to be
    made of lists, dicts, strings and numbers; [base64.b64decode];
    [Image.open] on the decoded bytes; and [format(x, ".2%")].  [library]
    is the state these work on. *)
Variables (handle library bytes image : Type).

Inductive argument : Type :=
| Text (v : pyval)
| Picture (i : image).

Variable pipeline : string → option string → M library handle.
Variable call : handle → argument → list (string * pyval) → M library pyval.
Variable b64decode : pyval → exc bytes.
Variable image_open : bytes → M library image.
Variable format_percent : pyval → exc string.

(** The [model] attribute of the one object of each class, the state of
    the library, and the lines printed so far. *)
Record state := State {
  models : Real.tool_class → option handle;
  library_state : library;
  stdout : list string
}.

Definition print (line : string) : M state unit :=
  λ s, (Ret (),
        {| models := models s; library_state := library_state s;
           stdout := stdout s ++ [line] |}).

Definition in_library {A} (m : M library A) : M state A :=
  λ s, let '(r, l) := m (library_state s) in
       (r, {| models := models s; library_state := l; stdout := stdout s |}).

Definition get_model (c : Real.tool_class) : M state (option handle) :=
  λ s, (Ret (models s c), s).

Definition set_model (c : Real.tool_class) (h : handle) : M state unit :=
  λ s, (Ret (),
        {| models := λ c', if decide (c' = c) then Some h else models s c';
           library_state := library_state s; stdout := stdout s |}).

(** [self.init_model()] *)
Definition init_model (c : Real.tool_class) : M state unit :=
  let* _ := print ("Loading " +:+ display_name c +:+ "...") in
  let* h := in_library (pipeline (pipeline_task c) (pipeline_model c)) in
  let* _ := set_model c h in
  print ("✓ " +:+ display_name c +:+ " ready!").

(** [if self.model is None: self.init_model()] *)
Definition ensure_model (c : Real.tool_class) : M state unit :=
  let* m := get_model c in
  match m with
  | None => init_model c
  | Some _ => ret ()
  end.

(** [self.model(x, ...)] *)
Definition call_model (c : Real.tool_class) (x : argument)
    (kwargs : list (string * pyval)) : M state pyval :=
  let* m := get_model c in
  match m with
  | Some h => in_library (call h x kwargs)
  | None => raise (Exn "TypeError" "'NoneType' object is not callable")
  end.

Definition result_dict (v : pyval) : pyval := PDict [("result", v)].

Definition SemanticsAnalyzer_process_query (text_input : pyval) : M state pyval :=
  let* _ := ensure_model Real.SemanticsAnalyzer in
  let* results := call_model Real.SemanticsAnalyzer (Text text_input) [] in
  let* result := lift_exc (PyOps.item results 0) in
  let* label := lift_exc (PyOps.item_key result "label") in
  let* score := lift_exc (PyOps.item_key result "score") in
  let* pct := lift_exc (format_percent score) in
  ret (result_dict (PStr ("Sentiment: " +:+ PyVal.str label +:+ " (confidence: "
                            +:+ pct +:+ ")"))).

(** [image_data.split(',')[1] if ',' in image_data else image_data] *)
Definition image_payload (image_data : pyval) : exc pyval :=
  exc_bind (PyOps.contains_char ","%char image_data) (λ has_comma,
    if has_comma : bool then
      exc_bind (PyOps.split ","%char image_data) (λ pieces,
        PyOps.item (PList (PStr <$> pieces)) 1)
    else Ret image_data).

(** One turn of the loop over the predictions. *)
Definition prediction_line (result_text : string) (pred : pyval) : exc string :=
  exc_bind (PyOps.item_key pred "label") (λ label,
  exc_bind (PyOps.item_key pred "score") (λ score,
  exc_bind (format_percent score) (λ pct,
    Ret (result_text +:+ "- " +:+ PyVal.str label +:+ ": " +:+ pct +:+ nl)))).

Fixpoint prediction_lines (result_text : string) (preds : list pyval) : exc string :=
  match preds with
  | [] => Ret result_text
  | pred :: rest =>
      exc_bind (prediction_line result_text pred) (λ result_text',
        prediction_lines result_text' rest)
  end.

Definition ImageClassifier_process_query (image_data : pyval) : M state pyval :=
  let* _ := ensure_model Real.ImageClassifier in
  let* payload := lift_exc (image_payload image_data) in
  let* image_bytes := lift_exc (b64decode payload) in
  let* image := in_library (image_open image_bytes) in
  let* predictions := call_model Real.ImageClassifier (Picture image) [("top_k", PInt 3)] in
  let* preds := lift_exc (PyOps.iterate predictions) in
  let* result_text := lift_exc (prediction_lines ("I see:" +:+ nl) preds) in
  ret (result_dict (PStr result_text)).

Definition TextSummarizer_process_query (text_input : pyval) : M state pyval :=
  let* _ := ensure_model Real.TextSummarizer in
  let* summary :=
    call_model Real.TextSummarizer (Text text_input)
      [("max_length", PInt 130); ("min_length", PInt 30); ("do_sample", PBool false)] in
  let* first := lift_exc (PyOps.item summary 0) in
  let* summary_text := lift_exc (PyOps.item_key first "summary_text") in
  ret (result_dict summary_text).

(** The three tools that generate text differ in the prompt and in
    [max_length]. *)
Definition generate (c : Real.tool_class) (prompt : string) (max_length : Z)
    : M state pyval :=
  let* _ := ensure_model c in
  let* sequences :=
    call_model c (Text (PStr prompt))
      [("max_length", PInt max_length); ("num_return_sequences", PInt 1)] in
  let* first := lift_exc (PyOps.item sequences 0) in
  let* generated_text := lift_exc (PyOps.item_key first "generated_text") in
  ret (result_dict generated_text).

Definition JokeGenerator_process_query (text_input : pyval) : M state pyval :=
  generate Real.JokeGenerator
    ("Here's a funny joke about " +:+ PyVal.str text_input +:+ ":" +:+ nl) 100.

Definition HaikuWriter_process_query (text_input : pyval) : M state pyval :=
  generate Real.HaikuWriter
    ("Write a haiku (5-7-5 syllables) about " +:+ PyVal.str text_input +:+ ":" +:+ nl) 80.

Definition QuestionAnswerer_process_query (text_input : pyval) : M state pyval :=
  generate Real.QuestionAnswerer
    ("Question: " +:+ PyVal.str text_input +:+ nl +:+ "Answer: Because") 100.

(** [tool.process_query(input)]: the method of the object's class. *)
Definition process_query (c : Real.tool_class) (input : pyval) : M state pyval :=
  match c with
  | Real.SemanticsAnalyzer => SemanticsAnalyzer_process_query input
  | Real.ImageClassifier => ImageClassifier_process_query input
  | Real.TextSummarizer => TextSummarizer_process_query input
  | Real.JokeGenerator => JokeGenerator_process_query input
  | Real.HaikuWriter => HaikuWriter_process_query input
  | Real.QuestionAnswerer => QuestionAnswerer_process_query input
  end.

(** A computation that writes neither a [model] attribute nor a line. *)
Definition quiet {A} (m : M state A) : Prop :=
  ∀ s, models (m s).2 = models s ∧ stdout (m s).2 = stdout s.

(** The state at process start: no model is loaded, nothing is printed. *)
Definition initial (l : library) : state :=
  {| models := λ _, None; library_state := l; stdout := [] |}.

End Library.

End RealTools.

(** * The definitions on concrete inputs *)

Section Examples.

Example lower_example : PyStr.lower "It is GOOD" = "it is good".
Proof. reflexivity. Qed.

Example split_ws_example : PyStr.split_ws "  a  bc d " = ["a"; "bc"; "d"].
Proof. reflexivity. Qed.

Example split_example : PyStr.split "."%char "a.b..c." = ["a"; "b"; ""; "c"; ""].
Proof. reflexivity. Qed.

Example strip_example : PyStr.strip "  a b  " = "a b".
Proof. reflexivity. Qed.

Example capitalize_example : PyStr.capitalize "the SEA" = "The sea".
Proof. reflexivity. Qed.

Example format_example :
  PyStr.format "A {topic}, {{x}} {topic}s" [("topic", "cat")] = Ret "A cat, {x} cats".
Proof. reflexivity. Qed.

Example str_example :
  PyVal.str (PList [PInt 1; PStr "a"; PNone; PBool true; PDict [("k", PStr "v")]])
  = "[1, 'a', None, True, {'k': 'v'}]".
Proof. vm_compute. reflexivity. Qed.

Example json_dumps_example :
  PyVal.json_dumps (PList [PInt (-1); PNone; PBool true]) = "[-1, null, true]".
Proof. vm_compute. reflexivity. Qed.

Example format_pct_example :
  PyVal.format_pct <$> [9500; 5000; 8700; 50]%N = ["95.00%"; "50.00%"; "87.00%"; "0.50%"].
Proof. vm_compute. reflexivity. Qed.

Example sentiment_example :
  (Mock.process_query Mock.new_SemanticsAnalyzer (PStr "This is GOOD and great") []).1
  = Ret (Mock.result_dict "Sentiment: POSITIVE (confidence: 80.00%)").
Proof. vm_compute. reflexivity. Qed.

Example sentiment_tie_example :
  (Mock.process_query Mock.new_SemanticsAnalyzer (PStr "good but BAD") []).1
  = Ret (Mock.result_dict "Sentiment: NEUTRAL (confidence: 50.00%)").
Proof. vm_compute. reflexivity. Qed.

Example classifier_example :
  (Mock.process_query Mock.ImageClassifier (PStr "data:image/png;base64,AAAA") [5; 4; 3]).1
  = Ret (Mock.result_dict "I see:
- food: 81.00%
- landscape: 78.00%
- person: 69.00%
").
Proof. vm_compute. reflexivity. Qed.

Example summarizer_example :
  (Mock.process_query Mock.TextSummarizer (PStr "Hello there!  How are you? Fine.a.b.c") []).1
  = Ret (Mock.result_dict "Hello there. How are you.").
Proof. vm_compute. reflexivity. Qed.

Example haiku_example :
  (Mock.process_query Mock.new_HaikuWriter (PStr "the SEA") [4]).1
  = Ret (Mock.result_dict "Write a haiku (5-7-5 syllables) about the SEA:
Dancing The sea
Whispers secrets to the wind
Nature's gentle song").
Proof. vm_compute. reflexivity. Qed.

Example handler_joke_example :
  (Mock.handler (Mock.post [("tool", PStr "joke"); ("input", PStr "cat")]) (Mock.startup [1])).1
  = {| Mock.statusCode := 200; Mock.headers := Mock.json_headers;
       Mock.body := PyVal.json_dumps (Mock.result_dict "Here's a funny joke about cat:
What do you call a cat that can't stop talking? A chatter-cat!") |}.
Proof. vm_compute. reflexivity. Qed.

(** A [tool] field that is a list cannot be hashed: the membership test
    raises, and the answer is a 500. *)
Example handler_unhashable_example :
  (Mock.handler (Mock.post [("tool", PList []); ("input", PStr "cat")]) (Mock.startup [])).1
  = Mock.server_error (Exn "TypeError" "unhashable type: 'list'").
Proof. vm_compute. reflexivity. Qed.

(** A body that is not a JSON object has no [get]. *)
Example handler_not_an_object_example :
  (Mock.handler {| Mock.method := "POST"; Mock.body_json := Ret (PList []) |}
                (Mock.startup [])).1
  = Mock.server_error (Exn "AttributeError" "'list' object has no attribute 'get'").
Proof. vm_compute. reflexivity. Qed.

(** The log records the one call a successful request makes. *)
Example handler_log_example :
  Mock.invoked (Mock.handler (Mock.post [("tool", PStr "summarizer"); ("input", PStr "Hi")])
                             (Mock.startup [])).2
  = [(PStr "summarizer", PStr "Hi")].
Proof. vm_compute. reflexivity. Qed.

End Examples.

(** * Facts about the Python layer *)

Section StringFacts.

Implicit Types (s t u : string) (c : ascii) (l : list string).

Lemma str_app_cons c s t : String c s +:+ t = String c (s +:+ t).
Proof. reflexivity. Qed.

Lemma str_app_nil_l s : "" +:+ s = s.
Proof. reflexivity. Qed.

Lemma str_app_nil_r s : s +:+ "" = s.
Proof. induction s as [|c s IH]; [done|]. by rewrite str_app_cons, IH. Qed.

Lemma str_app_assoc s t u : (s +:+ t) +:+ u = s +:+ t +:+ u.
Proof. induction s as [|c s IH]; [done|]. by rewrite !str_app_cons, IH. Qed.

Lemma str_length_app s t :
  String.length (s +:+ t) = String.length s + String.length t.
Proof. induction s as [|c s IH]; [done|]. rewrite str_app_cons. simpl. by rewrite IH. Qed.

Lemma length_map_chars f s : String.length (PyStr.map_chars f s) = String.length s.
Proof. induction s as [|c s IH]; simpl; [done|]. by rewrite IH. Qed.

Lemma length_replace old new s :
  String.length (PyStr.replace old new s) = String.length s.
Proof. apply length_map_chars. Qed.

(** The pieces of [split] and the separators between them make up the
    whole text. *)
Lemma split_total sep s :
  sum_list (String.length <$> PyStr.split sep s) + length (PyStr.split sep s)
  = S (String.length s).
Proof.
  induction s as [|c s IH]; simpl; [done|].
  destruct (decide (c = sep)); csimpl; [lia|].
  destruct (PyStr.split sep s) as [|p ps]; csimpl in *; lia.
Qed.

Lemma lstrip_length s : String.length (PyStr.lstrip s) ≤ String.length s.
Proof.
  induction s as [|c s IH]; simpl; [done|].
  destruct (PyStr.isspace c); simpl; lia.
Qed.

Lemma rstrip_length s : String.length (PyStr.rstrip s) ≤ String.length s.
Proof.
  induction s as [|c s IH]; simpl; [done|].
  destruct (PyStr.rstrip s); [destruct (PyStr.isspace c)|]; simpl in *; lia.
Qed.

Lemma strip_length s : String.length (PyStr.strip s) ≤ String.length s.
Proof.
  unfold PyStr.strip. etrans; [apply rstrip_length|apply lstrip_length].
Qed.

Lemma join_length sep l :
  l ≠ [] →
  String.length (PyStr.join sep l) + String.length sep
  = sum_list (String.length <$> l) + String.length sep * length l.
Proof.
  induction l as [|x [|y l] IH]; intros Hl; [done|simpl; lia|].
  change (PyStr.join sep (x :: y :: l)) with (x +:+ sep +:+ PyStr.join sep (y :: l)).
  rewrite !str_length_app.
  specialize (IH ltac:(done)).
  rewrite fmap_cons. change (sum_list (?a :: ?r)) with (a + sum_list r).
  rewrite (length_cons x). lia.
Qed.

Lemma sum_length_take n l :
  sum_list (String.length <$> take n l) ≤ sum_list (String.length <$> l).
Proof.
  revert n; induction l as [|x l IH]; intros [|n]; csimpl; try lia.
  specialize (IH n). lia.
Qed.

Lemma sum_length_strip_filter (P : string → Prop) `{!∀ x, Decision (P x)} l :
  sum_list (String.length <$> (PyStr.strip <$> filter P l))
  ≤ sum_list (String.length <$> l).
Proof.
  induction l as [|x l IH]; [done|].
  rewrite filter_cons. destruct (decide (P x)); csimpl.
  - pose proof (strip_length x). lia.
  - lia.
Qed.

Lemma split_nonempty sep s : PyStr.split sep s ≠ [].
Proof.
  destruct s as [|c s]; simpl; [done|].
  destruct (decide (c = sep)); [done|]. by destruct (PyStr.split sep s).
Qed.

Lemma has_char_app c s t :
  PyStr.has_char c (s +:+ t) = PyStr.has_char c s || PyStr.has_char c t.
Proof.
  induction s as [|d s IH]; [done|]. rewrite str_app_cons. simpl.
  by destruct (decide (d = c)).
Qed.

(** A text with a separator splits into two pieces at least. *)
Lemma split_length_sep sep s :
  PyStr.has_char sep s = true → 2 ≤ length (PyStr.split sep s).
Proof.
  induction s as [|c s IH]; simpl; [done|].
  destruct (decide (c = sep)) as [->|Hc]; intros H.
  - pose proof (split_nonempty sep s).
    destruct (PyStr.split sep s); simpl; [done|lia].
  - specialize (IH H). destruct (PyStr.split sep s); simpl in *; lia.
Qed.

(** No piece of [split] holds the separator, and a character that is
    not in the text is in none of the pieces. *)
Lemma split_pieces_free sep c s :
  c = sep ∨ PyStr.has_char c s = false →
  Forall (λ p, PyStr.has_char c p = false) (PyStr.split sep s).
Proof.
  induction s as [|d s IH]; simpl; intros H.
  - by constructor.
  - destruct (decide (d = sep)) as [->|Hd].
    + constructor; [done|]. apply IH.
      destruct H as [->|H]; [by left|right].
      by destruct (decide (sep = c)).
    + assert (d ≠ c ∧ (c = sep ∨ PyStr.has_char c s = false)) as [Hdc H'].
      { destruct H as [->|H]; [by split; [|left]|].
        destruct (decide (d = c)); [done|]. by split; [|right]. }
      specialize (IH H').
      destruct (PyStr.split sep s) as [|p ps]; simpl.
      * constructor; [|done]. simpl. by destruct (decide (d = c)).
      * inversion_clear IH. constructor; [|done]. simpl.
        by destruct (decide (d = c)).
Qed.

Lemma split_app_sep sep s t :
  PyStr.has_char sep s = false →
  PyStr.split sep (s +:+ String sep t) = s :: PyStr.split sep t.
Proof.
  induction s as [|c s IH]; simpl; intros H.
  - by destruct (decide (sep = sep)).
  - destruct (decide (c = sep)); [done|]. by rewrite IH.
Qed.

Lemma replace_absent old new s :
  PyStr.has_char old s = false → PyStr.replace old new s = s.
Proof.
  unfold PyStr.replace.
  induction s as [|c s IH]; simpl; [done|].
  destruct (decide (c = old)); [done|]. intros H. by rewrite IH.
Qed.

Lemma has_char_replace_old old new s :
  old ≠ new → PyStr.has_char old (PyStr.replace old new s) = false.
Proof.
  intros Hne. unfold PyStr.replace.
  induction s as [|c s IH]; simpl; [done|].
  destruct (decide (c = old)) as [->|Hc].
  - by destruct (decide (new = old)).
  - by destruct (decide (c = old)).
Qed.

Lemma has_char_replace_other c old new s :
  c ≠ old → c ≠ new →
  PyStr.has_char c (PyStr.replace old new s) = PyStr.has_char c s.
Proof.
  intros Ho Hn. unfold PyStr.replace.
  induction s as [|d s IH]; simpl; [done|].
  destruct (decide (d = old)) as [->|Hd].
  - destruct (decide (new = c)); [done|]. by destruct (decide (old = c)).
  - destruct (decide (d = c)); [done|]. exact IH.
Qed.

Lemma has_char_replace_new old new s :
  PyStr.has_char new (PyStr.replace old new s)
  = PyStr.has_char old s || PyStr.has_char new s.
Proof.
  unfold PyStr.replace.
  induction s as [|d s IH]; simpl; [done|].
  destruct (decide (d = old)) as [->|Hd].
  - by destruct (decide (new = new)).
  - destruct (decide (d = new)); [by rewrite orb_true_r|]. exact IH.
Qed.

Lemma has_char_lstrip c s :
  PyStr.has_char c s = false → PyStr.has_char c (PyStr.lstrip s) = false.
Proof.
  induction s as [|d s IH]; simpl; [done|].
  destruct (PyStr.isspace d); simpl; [|done].
  destruct (decide (d = c)); [done|]. exact IH.
Qed.

Lemma has_char_rstrip c s :
  PyStr.has_char c s = false → PyStr.has_char c (PyStr.rstrip s) = false.
Proof.
  induction s as [|d s IH]; simpl; [done|].
  destruct (decide (d = c)) as [->|Hd]; [done|]. intros H. specialize (IH H).
  destruct (PyStr.rstrip s); [destruct (PyStr.isspace d)|]; simpl;
    try done; by destruct (decide (d = c)).
Qed.

Lemma has_char_strip c s :
  PyStr.has_char c s = false → PyStr.has_char c (PyStr.strip s) = false.
Proof. intros H. by apply has_char_rstrip, has_char_lstrip. Qed.

Lemma lstrip_head s :
  PyStr.lstrip s = "" ∨ ∃ c r, PyStr.lstrip s = String c r ∧ PyStr.isspace c = false.
Proof.
  induction s as [|c s IH]; simpl; [by left|].
  destruct (PyStr.isspace c) eqn:Hc; [done|]. right. eauto.
Qed.

Lemma rstrip_cons c s :
  PyStr.isspace c = false → PyStr.rstrip (String c s) = String c (PyStr.rstrip s).
Proof. intros Hc. simpl. rewrite Hc. by destruct (PyStr.rstrip s). Qed.

Lemma rstrip_idemp s : PyStr.rstrip (PyStr.rstrip s) = PyStr.rstrip s.
Proof.
  induction s as [|c s IH]; [done|].
  change (PyStr.rstrip (String c s))
    with (match PyStr.rstrip s with
          | "" => if PyStr.isspace c then "" else String c ""
          | String d r => String c (String d r)
          end).
  destruct (PyStr.rstrip s) as [|d r] eqn:Hr.
  - destruct (PyStr.isspace c) eqn:Hc; [done|]. simpl. by rewrite Hc.
  - change (PyStr.rstrip (String c (String d r)))
      with (match PyStr.rstrip (String d r) with
            | "" => if PyStr.isspace c then "" else String c ""
            | String d' r' => String c (String d' r')
            end).
    by rewrite IH.
Qed.

Lemma strip_idemp s : PyStr.strip (PyStr.strip s) = PyStr.strip s.
Proof.
  unfold PyStr.strip.
  destruct (lstrip_head s) as [->|(c & r & -> & Hc)]; [done|].
  rewrite (rstrip_cons c r Hc). simpl PyStr.lstrip. rewrite Hc.
  rewrite <-(rstrip_cons c r Hc). apply rstrip_idemp.
Qed.

Lemma lstrip_length_eq s :
  String.length (PyStr.lstrip s) = String.length s → PyStr.lstrip s = s.
Proof.
  destruct s as [|c s]; simpl; [done|].
  destruct (PyStr.isspace c); [|done].
  pose proof (lstrip_length s). lia.
Qed.

Lemma rstrip_length_eq s :
  String.length (PyStr.rstrip s) = String.length s → PyStr.rstrip s = s.
Proof.
  induction s as [|c s IH]; simpl; [done|].
  pose proof (rstrip_length s) as Hle.
  destruct (PyStr.rstrip s) as [|d r] eqn:Hr.
  - destruct (PyStr.isspace c); simpl; [done|].
    intros Hlen. rewrite IH; [done|]. simpl. lia.
  - simpl. intros Hlen. rewrite IH; [done|]. simpl in *. lia.
Qed.

Lemma strip_length_eq s :
  String.length (PyStr.strip s) = String.length s → PyStr.strip s = s.
Proof.
  unfold PyStr.strip. intros Hlen.
  pose proof (lstrip_length s). pose proof (rstrip_length (PyStr.lstrip s)).
  rewrite rstrip_length_eq by lia. apply lstrip_length_eq. lia.
Qed.

Lemma split_no_sep sep s : PyStr.has_char sep s = false → PyStr.split sep s = [s].
Proof.
  induction s as [|c s IH]; simpl; [done|].
  destruct (decide (c = sep)); [done|]. intros H. by rewrite IH.
Qed.

End StringFacts.

Section SummarizerFacts.

Implicit Types (s t : string) (ss : list string).

Let replaced (text : string) : string :=
  PyStr.replace "?"%char "."%char (PyStr.replace "!"%char "."%char text).

Lemma replaced_has_dot text :
  PyStr.has_char "."%char (replaced text) = Mock.has_terminator text.
Proof.
  unfold replaced, Mock.has_terminator.
  rewrite has_char_replace_new, has_char_replace_other by done.
  rewrite has_char_replace_new.
  destruct (PyStr.has_char "." text), (PyStr.has_char "!" text),
    (PyStr.has_char "?" text); done.
Qed.

Lemma replaced_no_marks text :
  PyStr.has_char "!"%char (replaced text) = false ∧
  PyStr.has_char "?"%char (replaced text) = false.
Proof.
  unfold replaced. split.
  - rewrite has_char_replace_other by done. by apply has_char_replace_old.
  - by apply has_char_replace_old.
Qed.

Lemma sentences_of_are_sentences text :
  Forall Mock.is_sentence (Mock.sentences_of text).
Proof.
  unfold Mock.sentences_of. fold (replaced text).
  destruct (replaced_no_marks text) as [Hbang Hquest].
  pose proof (split_pieces_free "." "." (replaced text) (or_introl eq_refl)) as Hdot.
  pose proof (split_pieces_free "." "!" (replaced text) (or_intror Hbang)) as H1.
  pose proof (split_pieces_free "." "?" (replaced text) (or_intror Hquest)) as H2.
  induction (PyStr.split "." (replaced text)) as [|p ps IH]; [constructor|].
  inversion_clear Hdot. inversion_clear H1. inversion_clear H2.
  rewrite filter_cons. destruct (decide (PyStr.strip p ≠ "")); csimpl; [|by apply IH].
  constructor; [|by apply IH].
  repeat split; auto using strip_idemp, has_char_strip.
Qed.

Lemma split_summary pfx x ss :
  PyStr.has_char "."%char pfx = false →
  Forall (λ s, PyStr.has_char "."%char s = false) (x :: ss) →
  PyStr.split "."%char (pfx +:+ PyStr.join ". " (x :: ss) +:+ ".")
  = (pfx +:+ x) :: ((λ s, " " +:+ s) <$> ss) ++ [""].
Proof.
  revert pfx x. induction ss as [|y ss IH]; intros pfx x Hpfx Hall.
  - inversion_clear Hall. simpl PyStr.join.
    rewrite <-str_app_assoc. rewrite split_app_sep; [done|].
    rewrite has_char_app. by rewrite Hpfx, H.
  - inversion_clear Hall as [|?? Hx Hrest].
    change (PyStr.join ". " (x :: y :: ss)) with (x +:+ ". " +:+ PyStr.join ". " (y :: ss)).
    replace (pfx +:+ (x +:+ ". " +:+ PyStr.join ". " (y :: ss)) +:+ ".")
      with ((pfx +:+ x) +:+ String "." (" " +:+ PyStr.join ". " (y :: ss) +:+ ".")).
    2:{ rewrite !str_app_assoc. reflexivity. }
    rewrite split_app_sep by (rewrite has_char_app; by rewrite Hpfx, Hx).
    rewrite (IH " " y); [done|done|done].
Qed.

Lemma sentences_of_pieces ss :
  Forall Mock.is_sentence ss →
  PyStr.strip <$> filter (λ s, PyStr.strip s ≠ "") (((λ s, " " +:+ s) <$> ss) ++ [""]) = ss.
Proof.
  induction 1 as [|x ss (Hx & Hne & _) _ IH]; [done|].
  csimpl. rewrite filter_cons.
  assert (PyStr.strip (" " +:+ x) = x) as Hs by exact Hx.
  rewrite Hs. destruct (decide (x ≠ "")); [|done].
  csimpl. by rewrite Hs, IH.
Qed.

(** The sentences of a summary are the sentences it was joined from. *)
Lemma sentences_of_summary ss :
  Forall Mock.is_sentence ss →
  Mock.sentences_of (PyStr.join ". " ss +:+ ".") = ss.
Proof.
  intros Hall. unfold Mock.sentences_of.
  assert (Forall (λ s, PyStr.has_char "." s = false) ss) as Hdot.
  { eapply Forall_impl; [exact Hall|]. by intros s (_ & _ & ? & _). }
  assert (∀ c, (c = "!" ∨ c = "?")%char →
               PyStr.has_char c (PyStr.join ". " ss +:+ ".") = false) as Hfree.
  { intros c Hc. rewrite has_char_app.
    assert (PyStr.has_char c "." = false) as -> by (by destruct Hc as [-> | ->]).
    rewrite orb_false_r.
    induction Hall as [|x [|y ss'] (_ & _ & _ & Hb & Hq) Hrest IH].
    - done.
    - by destruct Hc as [-> | ->].
    - change (PyStr.join ". " (x :: y :: ss'))
        with (x +:+ ". " +:+ PyStr.join ". " (y :: ss')).
      rewrite !has_char_app, IH; [|by inversion Hdot].
      by destruct Hc as [-> | ->]; rewrite ?Hb, ?Hq. }
  rewrite (replace_absent "!" "." _ (Hfree "!"%char (or_introl eq_refl))).
  rewrite (replace_absent "?" "." _ (Hfree "?"%char (or_intror eq_refl))).
  destruct ss as [|x ss]; [done|].
  pose proof (split_summary "" x ss eq_refl Hdot) as Hsplit.
  rewrite str_app_nil_l in Hsplit. rewrite Hsplit, str_app_nil_l.
  inversion_clear Hall as [|?? Hx Hrest].
  rewrite filter_cons. destruct Hx as (Hx & Hne & _).
  rewrite Hx. destruct (decide (x ≠ "")); [|done].
  csimpl. by rewrite Hx, sentences_of_pieces.
Qed.

(** The length of a summary, from the sizes of the pieces of the input:
    [n] sentences among [m] pieces whose lengths add up to [total]. *)
Lemma summarize_length text :
  String.length (Mock.summarize text) ≤ String.length text + 1 ∧
  (Mock.has_terminator text = true →
   String.length (Mock.summarize text) ≤ String.length text).
Proof.
  unfold Mock.summarize.
  set (ss := Mock.sentences_of text).
  set (c := 3 `min` (1 `max` (length ss `div` 3))).
  pose proof (split_total "." (replaced text)) as Htotal.
  unfold replaced in Htotal at 3. rewrite !length_replace in Htotal.
  assert (sum_list (String.length <$> ss)
          ≤ sum_list (String.length <$> PyStr.split "." (replaced text))) as Hsum
    by apply sum_length_strip_filter.
  assert (length ss ≤ length (PyStr.split "." (replaced text))) as Hlen.
  { unfold ss, Mock.sentences_of. rewrite length_fmap. apply length_filter. }
  pose proof (sum_length_take c ss) as Htake.
  assert (length (take c ss) = c `min` length ss) as Hc by apply length_take.
  pose proof (Nat.div_mod_eq (length ss) 3) as Hdiv.
  pose proof (Nat.mod_upper_bound (length ss) 3 ltac:(done)) as Hmod.
  assert (Mock.has_terminator text = true →
          2 ≤ length (PyStr.split "." (replaced text))) as Hsep.
  { intros H. apply split_length_sep. by rewrite replaced_has_dot. }
  rewrite str_length_app. change (String.length ".") with 1.
  destruct (take c ss) as [|x T] eqn:HT.
  - simpl. split; [lia|]. intros H. specialize (Hsep H). lia.
  - pose proof (join_length ". " (x :: T) ltac:(done)) as Hjoin.
    change (String.length ". ") with 2 in Hjoin.
    split; [|intros H; specialize (Hsep H)]; lia.
Qed.

(** Without a sentence terminator the whole input is the one sentence. *)
Lemma summarize_plain text :
  Mock.has_terminator text = false →
  Mock.summarize text = PyStr.strip text +:+ ".".
Proof.
  unfold Mock.has_terminator. intros H.
  apply orb_false_elim in H as [H Hquest]. apply orb_false_elim in H as [Hdot Hbang].
  unfold Mock.summarize, Mock.sentences_of.
  rewrite (replace_absent "!" "." text Hbang), (replace_absent "?" "." text Hquest).
  rewrite (split_no_sep "." text Hdot).
  rewrite filter_cons, filter_nil.
  destruct (decide (PyStr.strip text ≠ "")) as [Hne|Heq]; [done|].
  apply dec_stable in Heq. by rewrite Heq.
Qed.

End SummarizerFacts.

Section RandomFacts.

Context {A : Type}.
Implicit Types (g : Random.rng) (seq pool : list A).

Lemma randbelow_spec n g :
  0 < n → ∃ j g', Random.randbelow n g = (Ret j, g') ∧ j < n.
Proof.
  intros Hn. destruct g as [|x g]; simpl.
  - by exists 0, [].
  - exists (x mod n), g. split; [done|]. apply Nat.mod_upper_bound. lia.
Qed.

(** [choice] returns an element of a sequence that is not empty. *)
Lemma choice_spec seq g :
  seq ≠ [] → ∃ x g', Random.choice seq g = (Ret x, g') ∧ x ∈ seq.
Proof.
  intros Hseq. unfold Random.choice.
  destruct (decide (length seq = 0)) as [H0|H0].
  { by destruct seq. }
  destruct (randbelow_spec (length seq) g ltac:(lia)) as (j & g' & Hj & Hlt).
  unfold bind. rewrite Hj.
  destruct (lookup_lt_is_Some_2 seq j Hlt) as [x Hx]. rewrite Hx.
  exists x, g'. split; [done|]. by eapply list_elem_of_lookup_2.
Qed.

(** Every element can be chosen: the draw [i] selects [seq[i]]. *)
Lemma choice_reaches seq i x g :
  seq !! i = Some x → Random.choice seq (i :: g) = (Ret x, g).
Proof.
  intros Hx. pose proof (lookup_lt_Some _ _ _ Hx) as Hlt.
  unfold Random.choice. destruct (decide (length seq = 0)); [lia|].
  unfold bind. simpl. rewrite Nat.mod_small by done. by rewrite Hx.
Qed.

(** [k] draws from a pool of which [m] elements are left give [k]
    elements of the pool. *)
Lemma sample_pool_spec (P : A → Prop) pool m k g :
  Forall P pool → k ≤ m → m ≤ length pool →
  ∃ l g', Random.sample_pool pool m k g = (Ret l, g') ∧ length l = k ∧ Forall P l.
Proof.
  revert pool m g. induction k as [|k IH]; intros pool m g HP Hk Hm.
  - exists [], g. by repeat split.
  - simpl. destruct (randbelow_spec m g ltac:(lia)) as (j & g1 & Hj & Hlt).
    unfold bind at 1. rewrite Hj.
    destruct (lookup_lt_is_Some_2 pool j ltac:(lia)) as [x Hx].
    destruct (lookup_lt_is_Some_2 pool (m - 1) ltac:(lia)) as [y Hy].
    rewrite Hx, Hy.
    assert (P x) as HPx by (by eapply Forall_lookup_1).
    assert (P y) as HPy by (by eapply Forall_lookup_1).
    destruct (IH (<[j:=y]> pool) (m - 1) g1) as (l & g2 & Hl & Hlen & HPl).
    { by apply Forall_insert. }
    { lia. }
    { rewrite length_insert. lia. }
    unfold bind. rewrite Hl. exists (x :: l), g2.
    repeat split; [simpl; lia|by constructor].
Qed.

Lemma sample_spec (P : A → Prop) seq k g :
  Forall P seq → k ≤ length seq →
  ∃ l g', Random.sample seq k g = (Ret l, g') ∧ length l = k ∧ Forall P l.
Proof.
  intros HP Hk. unfold Random.sample.
  destruct (decide (k ≤ length seq)); [|done].
  by apply sample_pool_spec.
Qed.

End RandomFacts.

Section SortFacts.

Context {A : Type} (key : A → N).
Implicit Types (x y : A) (l : list A).

Lemma insert_desc_perm x l : insert_desc key x l ≡ₚ x :: l.
Proof.
  induction l as [|y l IH]; simpl; [done|].
  destruct (key y <=? key x)%N; [done|].
  rewrite IH. apply perm_swap.
Qed.

Lemma sorted_desc_perm l : sorted_desc key l ≡ₚ l.
Proof.
  induction l as [|x l IH]; simpl; [done|].
  by rewrite insert_desc_perm, IH.
Qed.

Lemma insert_desc_sorted x l :
  Sorted (λ a b, (key b ≤ key a)%N) l →
  Sorted (λ a b, (key b ≤ key a)%N) (insert_desc key x l).
Proof.
  induction 1 as [|y l Hl IH Hhd]; simpl.
  - by repeat constructor.
  - destruct (N.leb_spec (key y) (key x)) as [Hle|Hlt].
    + by repeat constructor.
    + constructor; [done|].
      destruct Hhd as [|z l' Hz]; simpl.
      * constructor. lia.
      * destruct (key z <=? key x)%N; constructor; [lia|done].
Qed.

(** [sorted_desc] rearranges its input with the largest key first. *)
Lemma sorted_desc_sorted l : Sorted (λ a b, (key b ≤ key a)%N) (sorted_desc key l).
Proof.
  induction l as [|x l IH]; simpl; [constructor|].
  by apply insert_desc_sorted.
Qed.

End SortFacts.

(** * The mock tools *)

Section MockToolFacts.

Implicit Types (text : string) (g : Random.rng).

Lemma sentiment_cases pos_count neg_count :
  ∃ label c,
    Mock.sentiment pos_count neg_count = (label, c) ∧
    label ∈ ["POSITIVE"; "NEGATIVE"; "NEUTRAL"] ∧ (5000 ≤ c ≤ 9500)%N.
Proof.
  unfold Mock.sentiment.
  destruct (decide (neg_count < pos_count)); [|destruct (decide (pos_count < neg_count))];
    eexists _, _; (split; [reflexivity|]); (split; [set_solver|lia]).
Qed.

Lemma SemanticsAnalyzer_result text g :
  Mock.process_query Mock.new_SemanticsAnalyzer (PStr text) g
  = (let '(label, c) :=
       Mock.sentiment (size (Mock.words_of text ∩ Mock.positive_words))
                      (size (Mock.words_of text ∩ Mock.negative_words)) in
     Ret (Mock.result_dict ("Sentiment: " +:+ label +:+ " (confidence: "
                              +:+ PyVal.format_pct c +:+ ")")), g).
Proof.
  unfold Mock.process_query, Mock.new_SemanticsAnalyzer,
    Mock.SemanticsAnalyzer_process_query.
  by destruct (Mock.sentiment _ _).
Qed.

Lemma size_inter_pos (X Y : gset string) w : w ∈ X → w ∈ Y → 0 < size (X ∩ Y).
Proof.
  intros HX HY. apply Nat.neq_0_lt_0, size_non_empty_iff. set_solver.
Qed.

Lemma size_inter_zero (X Y : gset string) : (∀ w, w ∈ X → w ∉ Y) → size (X ∩ Y) = 0.
Proof.
  intros Hdisj. apply size_empty_iff. intros w. rewrite elem_of_intersection.
  split; [|by intros ?%elem_of_empty]. intros [HX HY]. by destruct (Hdisj w HX).
Qed.

(** Every template of the two generators formats without an exception. *)
Lemma joke_templates_format template topic :
  template ∈ Mock.joke_templates →
  ∃ joke, PyStr.format template [("topic", topic)] = Ret joke.
Proof.
  unfold Mock.joke_templates. rewrite !elem_of_cons, elem_of_nil.
  intros [->|[->|[->|[->|[->|[]]]]]]; by eexists.
Qed.

Lemma haiku_templates_format template topic :
  template ∈ Mock.haiku_templates →
  ∃ haiku, PyStr.format template [("topic", topic)] = Ret haiku.
Proof.
  unfold Mock.haiku_templates. rewrite !elem_of_cons, elem_of_nil.
  intros [->|[->|[->|[]]]]; by eexists.
Qed.

Lemma JokeGenerator_result text g :
  ∃ joke g',
    Mock.process_query Mock.new_JokeGenerator (PStr text) g
    = (Ret (Mock.result_dict ("Here's a funny joke about " +:+ text +:+ ":" +:+ nl +:+ joke)),
       g').
Proof.
  unfold Mock.process_query, Mock.new_JokeGenerator, Mock.JokeGenerator_process_query.
  destruct (choice_spec Mock.joke_templates g ltac:(done)) as (t & g' & Ht & Hin).
  destruct (joke_templates_format t text Hin) as [joke Hjoke].
  exists joke, g'. unfold bind at 1. rewrite Ht.
  unfold bind, lift_exc. simpl PyVal.str. by rewrite Hjoke.
Qed.

Lemma HaikuWriter_result text g :
  ∃ haiku g',
    Mock.process_query Mock.new_HaikuWriter (PStr text) g
    = (Ret (Mock.result_dict ("Write a haiku (5-7-5 syllables) about " +:+ text
                                +:+ ":" +:+ nl +:+ haiku)), g').
Proof.
  unfold Mock.process_query, Mock.new_HaikuWriter, Mock.HaikuWriter_process_query.
  destruct (choice_spec Mock.haiku_templates g ltac:(done)) as (t & g' & Ht & Hin).
  destruct (haiku_templates_format t (PyStr.capitalize text) Hin) as [haiku Hhaiku].
  exists haiku, g'. unfold bind at 1. rewrite Ht.
  unfold bind, lift_exc. by rewrite Hhaiku.
Qed.

Lemma QuestionAnswerer_result text g :
  ∃ answer g',
    answer ∈ Mock.question_answers ∧
    Mock.process_query Mock.new_QuestionAnswerer (PStr text) g
    = (Ret (Mock.result_dict ("Question: " +:+ text +:+ nl +:+ "Answer: " +:+ answer)), g').
Proof.
  unfold Mock.process_query, Mock.new_QuestionAnswerer, Mock.QuestionAnswerer_process_query.
  destruct (choice_spec Mock.question_answers g ltac:(done)) as (a & g' & Ha & Hin).
  exists a, g'. split; [done|]. unfold bind. by rewrite Ha.
Qed.

Lemma label_lines_three c1 c2 c3 :
  Mock.label_lines [c1; c2; c3]
  = "I see:" +:+ nl +:+ Mock.label_line c1 +:+ Mock.label_line c2 +:+ Mock.label_line c3.
Proof.
  unfold Mock.label_lines. simpl foldl. by rewrite !str_app_assoc.
Qed.

(** The classifier prints three of the categories, best score first. *)
Lemma ImageClassifier_result (image_data : pyval) g :
  ∃ c1 c2 c3 g',
    Mock.process_query Mock.ImageClassifier image_data g
    = (Ret (Mock.result_dict (Mock.label_lines [c1; c2; c3])), g') ∧
    c1 ∈ Mock.categories ∧ c2 ∈ Mock.categories ∧ c3 ∈ Mock.categories ∧
    (c2.2 ≤ c1.2)%N ∧ (c3.2 ≤ c2.2)%N.
Proof.
  unfold Mock.process_query, Mock.ImageClassifier_process_query.
  destruct (sample_spec (λ c, c ∈ Mock.categories) Mock.categories 3 g)
    as (l & g' & Hl & Hlen & Hin).
  { by apply Forall_forall. }
  { simpl. lia. }
  unfold bind. rewrite Hl.
  pose proof (sorted_desc_perm snd l) as Hperm.
  pose proof (sorted_desc_sorted snd l) as Hsorted.
  rewrite <-Hperm in Hin.
  apply Permutation_length in Hperm. rewrite Hlen in Hperm.
  destruct (sorted_desc snd l) as [|c1 [|c2 [|c3 [|]]]]; try done.
  exists c1, c2, c3, g'.
  apply Forall_cons in Hin as [H1 Hin].
  apply Forall_cons in Hin as [H2 Hin].
  apply Forall_cons in Hin as [H3 _].
  inversion_clear Hsorted as [|?? Hs23 Hh1]. inversion_clear Hh1.
  inversion_clear Hs23 as [|?? _ Hh2]. inversion_clear Hh2.
  done.
Qed.

Lemma TextSummarizer_result text g :
  Mock.process_query Mock.TextSummarizer (PStr text) g
  = (Ret (Mock.result_dict (Mock.summarize text)), g).
Proof. reflexivity. Qed.

(** On a string, each registered tool returns a [{"result": text}]. *)
Lemma process_query_str name tool text g :
  (name, tool) ∈ Mock.registry →
  ∃ result g', Mock.process_query tool (PStr text) g = (Ret (Mock.result_dict result), g').
Proof.
  unfold Mock.registry. rewrite !elem_of_cons, elem_of_nil.
  intros [H|[H|[H|[H|[H|[H|[]]]]]]]; injection H as -> ->.
  - rewrite SemanticsAnalyzer_result. destruct (Mock.sentiment _ _). by eexists _, _.
  - destruct (ImageClassifier_result (PStr text) g) as (?&?&?&g'&H&_). by eexists _, _.
  - by eexists _, _.
  - destruct (JokeGenerator_result text g) as (?&?&H). by eexists _, _.
  - destruct (HaikuWriter_result text g) as (?&?&H). by eexists _, _.
  - destruct (QuestionAnswerer_result text g) as (?&?&?&H). by eexists _, _.
Qed.

End MockToolFacts.

(** * The dispatchers *)

Section DictFacts.

Context {V : Type}.
Implicit Types (d : list (string * V)) (k : string).

Lemma assoc_None d k : k ∉ d.*1 → PyVal.assoc d k = None.
Proof.
  induction d as [|[k' v] d IH]; simpl; [done|].
  rewrite not_elem_of_cons. intros [Hk Hd].
  destruct (decide (k' = k)); [done|]. by apply IH.
Qed.

Lemma dict_contains_absent d k : k ∉ d.*1 → PyVal.dict_contains d (PStr k) = Ret false.
Proof.
  intros Hk. unfold PyVal.dict_contains. rewrite (assoc_None d k Hk).
  by rewrite bool_decide_eq_false_2 by (by intros [? ?]).
Qed.

Lemma dict_contains_present d k v :
  PyVal.assoc d k = Some v → PyVal.dict_contains d (PStr k) = Ret true.
Proof.
  intros Hk. unfold PyVal.dict_contains. rewrite Hk.
  by rewrite bool_decide_eq_true_2 by eauto.
Qed.

End DictFacts.

Section MockHandlerFacts.

Implicit Types (w : Mock.world) (req : Mock.request) (d : list (string * pyval)).

Lemma invoke_tools tool_name t input w :
  Mock.tools (Mock.invoke tool_name t input w).2 = Mock.tools w.
Proof. unfold Mock.invoke. by destruct (Mock.process_query _ _ _). Qed.

(** A request for an unknown tool stops at the membership test. *)
Lemma handler_try_unknown d w :
  PyVal.dict_contains (Mock.tools w) (PyVal.dict_get d "tool") = Ret false →
  Mock.handler_try (Mock.post d) w
  = (Ret {| Mock.statusCode := 400; Mock.headers := None;
            Mock.body := PyVal.json_dumps
              (PDict [("error",
                       PStr ("Unknown tool: " +:+ PyVal.str (PyVal.dict_get d "tool")))]) |},
     w).
Proof.
  intros Hknown. unfold Mock.handler_try, Mock.post. simpl.
  unfold bind, lift_exc, Mock.get_tools. simpl. by rewrite Hknown.
Qed.

(** A request for a registered tool reaches the call of its method. *)
Lemma handler_try_known d name t w :
  PyVal.dict_get d "tool" = PStr name →
  PyVal.assoc (Mock.tools w) name = Some t →
  Mock.handler_try (Mock.post d) w
  = (let* result := Mock.invoke (PStr name) t (PyVal.dict_get d "input") in
     ret {| Mock.statusCode := 200; Mock.headers := Mock.json_headers;
            Mock.body := PyVal.json_dumps result |}) w.
Proof.
  intros Hname Ht. unfold Mock.handler_try, Mock.post. simpl.
  unfold bind at 1 2 3 4 5, lift_exc, Mock.get_tools. simpl.
  rewrite Hname, (dict_contains_present _ _ _ Ht). simpl.
  unfold bind at 1. by rewrite Ht.
Qed.

(** The handler never assigns to the global [tools]. *)
Lemma handler_tools req w : Mock.tools (Mock.handler req w).2 = Mock.tools w.
Proof.
  unfold Mock.handler, Mock.handler_try.
  destruct (decide (Mock.method req = "POST")); [|by destruct (decide _)].
  unfold bind, lift_exc, Mock.get_tools, ret.
  destruct (Mock.body_json req) as [v|?]; [|done].
  destruct (PyVal.get v "tool") as [tool_name|?]; [|done].
  destruct (PyVal.get v "input") as [user_input|?]; [|done].
  destruct (PyVal.dict_contains _ _) as [[]|?]; simpl; try done.
  destruct (PyVal.dict_item _ _) as [t|?]; [|done].
  pose proof (invoke_tools tool_name t user_input w) as Hinv.
  by destruct (Mock.invoke _ _ _ _) as [[result|?] w'].
Qed.

Lemma serve_tools reqs w : Mock.tools (Mock.serve reqs w) = Mock.tools w.
Proof.
  revert w. induction reqs as [|req reqs IH]; intros w; simpl; [done|].
  by rewrite IH, handler_tools.
Qed.

End MockHandlerFacts.

Section RealHandlerFacts.

Context {backend : Type} (process_query : Real.tool_class → pyval → M backend pyval).
Implicit Types (w : Real.world backend) (d : list (string * pyval)).

Lemma real_invoke_tools tool_name t input w :
  Real.tools _ (Real.invoke _ process_query tool_name t input w).2 = Real.tools _ w.
Proof. unfold Real.invoke. by destruct (process_query _ _ _). Qed.

Lemma process_request_try_unknown d w :
  PyVal.dict_contains (Real.tools _ w) (PyVal.dict_get d "tool") = Ret false →
  Real.process_request_try _ process_query (Ret (PDict d)) w
  = (Ret {| Real.status := 400;
            Real.json := PDict [("error",
              PStr ("Unknown tool: " +:+ PyVal.str (PyVal.dict_get d "tool")))] |}, w).
Proof.
  intros Hknown. unfold Real.process_request_try.
  unfold bind, lift_exc, Real.get_tools. simpl. by rewrite Hknown.
Qed.

Lemma process_request_try_known d name t w :
  PyVal.dict_get d "tool" = PStr name →
  PyVal.assoc (Real.tools _ w) name = Some t →
  Real.process_request_try _ process_query (Ret (PDict d)) w
  = (let* result := Real.invoke _ process_query (PStr name) t (PyVal.dict_get d "input") in
     ret {| Real.status := 200; Real.json := result |}) w.
Proof.
  intros Hname Ht. unfold Real.process_request_try.
  unfold bind at 1 2 3 4 5, lift_exc, Real.get_tools. simpl.
  rewrite Hname, (dict_contains_present _ _ _ Ht). simpl.
  unfold bind at 1. by rewrite Ht.
Qed.

Lemma process_request_tools data w :
  Real.tools _ (Real.process_request _ process_query data w).2 = Real.tools _ w.
Proof.
  unfold Real.process_request, Real.process_request_try.
  unfold bind, lift_exc, Real.get_tools, ret.
  destruct data as [v|?]; [|done].
  destruct (PyVal.get v "tool") as [tool_name|?]; [|done].
  destruct (PyVal.get v "input") as [user_input|?]; [|done].
  destruct (PyVal.dict_contains _ _) as [[]|?]; simpl; try done.
  destruct (PyVal.dict_item _ _) as [t|?]; [|done].
  pose proof (real_invoke_tools tool_name t user_input w) as Hinv.
  by destruct (Real.invoke _ _ _ _ _ _) as [[result|?] w'].
Qed.

Lemma real_serve_tools reqs w :
  Real.tools _ (Real.serve _ process_query reqs w) = Real.tools _ w.
Proof.
  revert w. induction reqs as [|data reqs IH]; intros w; simpl; [done|].
  by rewrite IH, process_request_tools.
Qed.

End RealHandlerFacts.

(** * The claims *)

(** C1. For each of the six registered tool names and every string input,
    the mock handler answers the POST request with status 200 and the body
    [json.dumps({"result": text})] for some string [text].  The [try] block
    itself returns that response, so no exception is raised in it, and
    [handler] is a total function: nothing propagates past it. *)
Theorem C1_registered_tool_succeeds
    (name text : string) (d : list (string * pyval)) (w : Mock.world) :
  name ∈ ["semantics"; "image-classifier"; "summarizer"; "joke"; "haiku"; "question"] →
  Mock.tools w = Mock.registry →
  PyVal.dict_get d "tool" = PStr name →
  PyVal.dict_get d "input" = PStr text →
  ∃ result w',
    let resp := {| Mock.statusCode := 200; Mock.headers := Mock.json_headers;
                   Mock.body := PyVal.json_dumps (PDict [("result", PStr result)]) |} in
    Mock.handler_try (Mock.post d) w = (Ret resp, w') ∧
    Mock.handler (Mock.post d) w = (resp, w').
Proof.
  intros Hname Htools Htool Hinput.
  assert (∃ t, PyVal.assoc Mock.registry name = Some t ∧ (name, t) ∈ Mock.registry)
    as (t & Hassoc & Hreg).
  { rewrite !elem_of_cons, elem_of_nil in Hname.
    destruct Hname as [->|[->|[->|[->|[->|[->|[]]]]]]];
      (eexists; split; [reflexivity|]); unfold Mock.registry;
      rewrite !elem_of_cons; tauto. }
  rewrite <-Htools in Hassoc.
  unfold Mock.handler. rewrite (handler_try_known d name t w Htool Hassoc).
  unfold bind, Mock.invoke. rewrite Hinput.
  destruct (process_query_str name t text (Mock.rng w) Hreg) as (result & g' & Hq).
  rewrite Hq. by eexists result, _.
Qed.

Lemma C1_witness :
  ∃ result w',
    Mock.handler (Mock.post [("tool", PStr "joke"); ("input", PStr "cat")]) (Mock.startup [1])
    = ({| Mock.statusCode := 200; Mock.headers := Mock.json_headers;
          Mock.body := PyVal.json_dumps (PDict [("result", PStr result)]) |}, w').
Proof.
  destruct (C1_registered_tool_succeeds "joke" "cat"
              [("tool", PStr "joke"); ("input", PStr "cat")] (Mock.startup [1]))
    as (result & w' & _ & H).
  - rewrite !elem_of_cons. tauto.
  - reflexivity.
  - reflexivity.
  - reflexivity.
  - exists result, w'. exact H.
Defined.

(** C2. When the [tool] field of the request is absent, or is a string that
    is not one of the six registered names, the dispatcher of either
    variant answers with status 400 and the error message
    ["Unknown tool: "] followed by the name (by [None] for an absent
    field), whatever the [input] field is; the state, with its log of
    [process_query] calls, is unchanged. *)
Theorem C2_unknown_tool_is_client_error (d : list (string * pyval)) :
  let tool_name := PyVal.dict_get d "tool" in
  let message := "Unknown tool: " +:+ PyVal.str tool_name in
  (tool_name = PNone ∨
   ∃ name, tool_name = PStr name ∧
     name ∉ ["semantics"; "image-classifier"; "summarizer"; "joke"; "haiku"; "question"]) →
  PyStr.contains message (PyVal.str tool_name) ∧
  (∀ w, Mock.tools w = Mock.registry →
     Mock.handler (Mock.post d) w
     = ({| Mock.statusCode := 400; Mock.headers := None;
           Mock.body := PyVal.json_dumps (PDict [("error", PStr message)]) |}, w)) ∧
  (∀ backend (process_query : Real.tool_class → pyval → M backend pyval) w,
     Real.tools backend w = Real.registry →
     Real.process_request backend process_query (Ret (PDict d)) w
     = ({| Real.status := 400; Real.json := PDict [("error", PStr message)] |}, w)).
Proof.
  intros tool_name message Hunknown.
  assert (∀ V (reg : list (string * V)),
            reg.*1 = ["semantics"; "image-classifier"; "summarizer"; "joke"; "haiku";
                      "question"] →
            PyVal.dict_contains reg tool_name = Ret false) as Habsent.
  { intros V reg Hkeys. destruct Hunknown as [->|(name & -> & Hname)]; [done|].
    apply dict_contains_absent. by rewrite Hkeys. }
  split; [|split].
  - exists "Unknown tool: ", "". by rewrite str_app_nil_r.
  - intros w Htools. unfold Mock.handler. rewrite handler_try_unknown; [done|].
    rewrite Htools. by apply Habsent.
  - intros backend process_query w Htools. unfold Real.process_request.
    rewrite process_request_try_unknown; [done|].
    rewrite Htools. by apply Habsent.
Qed.

Lemma C2_witness :
  Mock.handler (Mock.post [("tool", PStr "nonexistent"); ("input", PStr "x")]) (Mock.startup [7])
  = ({| Mock.statusCode := 400; Mock.headers := None;
        Mock.body := PyVal.json_dumps (PDict [("error", PStr "Unknown tool: nonexistent")]) |},
     Mock.startup [7]).
Proof.
  refine (proj1 (proj2 (C2_unknown_tool_is_client_error
                          [("tool", PStr "nonexistent"); ("input", PStr "x")] _))
            (Mock.startup [7]) eq_refl).
  right. exists "nonexistent". split; [reflexivity|].
  rewrite !not_elem_of_cons. repeat split; try discriminate. apply not_elem_of_nil.
Defined.

(** C3. Whenever the [try] block of a dispatcher raises an exception [e],
    the dispatcher returns the status 500 with the body
    [{"error": str(e)}]; both dispatchers are total functions into
    responses, so nothing escapes them.  The two places the claim names are
    spelled out: an exception from decoding the request, and an exception
    from the [process_query] of a registered tool. *)
Theorem C3_exceptions_become_server_errors :
  (∀ req w e w',
     Mock.handler_try req w = (Raise e, w') →
     Mock.handler req w = (Mock.server_error e, w')) ∧
  (∀ e w,
     Mock.handler {| Mock.method := "POST"; Mock.body_json := Raise e |} w
     = (Mock.server_error e, w)) ∧
  (∀ d name t e g' w,
     PyVal.dict_get d "tool" = PStr name →
     PyVal.assoc (Mock.tools w) name = Some t →
     Mock.process_query t (PyVal.dict_get d "input") (Mock.rng w) = (Raise e, g') →
     (Mock.handler (Mock.post d) w).1 = Mock.server_error e) ∧
  (∀ backend (process_query : Real.tool_class → pyval → M backend pyval) data w e w',
     Real.process_request_try backend process_query data w = (Raise e, w') →
     Real.process_request backend process_query data w = (Real.server_error e, w')) ∧
  (∀ backend (process_query : Real.tool_class → pyval → M backend pyval) e w,
     Real.process_request backend process_query (Raise e) w = (Real.server_error e, w)) ∧
  (∀ backend (process_query : Real.tool_class → pyval → M backend pyval) d name t e b' w,
     PyVal.dict_get d "tool" = PStr name →
     PyVal.assoc (Real.tools backend w) name = Some t →
     process_query t (PyVal.dict_get d "input") (Real.models backend w) = (Raise e, b') →
     (Real.process_request backend process_query (Ret (PDict d)) w).1 = Real.server_error e).
Proof.
  split_and!.
  - intros req w e w' H. unfold Mock.handler. by rewrite H.
  - done.
  - intros d name t e g' w Hname Ht Hq. unfold Mock.handler.
    rewrite (handler_try_known d name t w Hname Ht).
    unfold bind, Mock.invoke. by rewrite Hq.
  - intros backend process_query data w e w' H. unfold Real.process_request. by rewrite H.
  - done.
  - intros backend process_query d name t e b' w Hname Ht Hq. unfold Real.process_request.
    rewrite (process_request_try_known process_query d name t w Hname Ht).
    unfold bind, Real.invoke. by rewrite Hq.
Qed.

Lemma C3_witness :
  (Mock.handler (Mock.post [("tool", PStr "haiku")]) (Mock.startup [2])).1
  = {| Mock.statusCode := 500; Mock.headers := None;
       Mock.body := PyVal.json_dumps
         (PDict [("error", PStr "'NoneType' object has no attribute 'capitalize'")]) |}.
Proof.
  refine (proj1 (proj2 (proj2 C3_exceptions_become_server_errors))
            [("tool", PStr "haiku")] "haiku" Mock.new_HaikuWriter
            (PyVal.no_attribute PNone "capitalize") [] (Mock.startup [2]) _ _ _);
    reflexivity.
Defined.

(** C4. The words of the input are those of [text_input.lower().split()].
    If one of them is in the positive set and none is in the negative set,
    the label is POSITIVE; if one is in the negative set and none in the
    positive set, the label is NEGATIVE; if none is in either set, the
    result is NEUTRAL with confidence 50.00%.  In every case the result is
    ["Sentiment: LABEL (confidence: PCT)"] with one of the three labels and
    a percentage between 50.00% and 95.00%. *)
Theorem C4_semantics_labels (text : string) (g : Random.rng) :
  let words := Mock.words_of text in
  let answers label pct :=
    Mock.process_query Mock.new_SemanticsAnalyzer (PStr text) g
    = (Ret (Mock.result_dict ("Sentiment: " +:+ label +:+ " (confidence: " +:+ pct +:+ ")")),
       g) in
  ((∃ w, w ∈ words ∧ w ∈ Mock.positive_words) →
   (∀ w, w ∈ words → w ∉ Mock.negative_words) →
   ∃ c, answers "POSITIVE" (PyVal.format_pct c)) ∧
  ((∃ w, w ∈ words ∧ w ∈ Mock.negative_words) →
   (∀ w, w ∈ words → w ∉ Mock.positive_words) →
   ∃ c, answers "NEGATIVE" (PyVal.format_pct c)) ∧
  ((∀ w, w ∈ words → (w ∉ Mock.positive_words) ∧ (w ∉ Mock.negative_words)) →
   answers "NEUTRAL" "50.00%") ∧
  (∃ label c,
     label ∈ ["POSITIVE"; "NEGATIVE"; "NEUTRAL"] ∧ (5000 ≤ c ≤ 9500)%N ∧
     answers label (PyVal.format_pct c)).
Proof.
  intros words answers. unfold answers. rewrite SemanticsAnalyzer_result.
  fold words. split_and!.
  - intros (w & Hw & Hpos) Hneg.
    pose proof (size_inter_pos _ _ w Hw Hpos) as Hp.
    rewrite (size_inter_zero words Mock.negative_words Hneg).
    unfold Mock.sentiment.
    destruct (decide (0 < size (words ∩ Mock.positive_words))); [|lia]. by eexists.
  - intros (w & Hw & Hneg) Hpos.
    pose proof (size_inter_pos _ _ w Hw Hneg) as Hn.
    rewrite (size_inter_zero words Mock.positive_words Hpos).
    unfold Mock.sentiment.
    destruct (decide (size (words ∩ Mock.negative_words) < 0)); [lia|].
    destruct (decide (0 < size (words ∩ Mock.negative_words))); [|lia]. by eexists.
  - intros Hnone.
    rewrite (size_inter_zero words Mock.positive_words) by (intros w Hw; apply Hnone, Hw).
    rewrite (size_inter_zero words Mock.negative_words) by (intros w Hw; apply Hnone, Hw).
    reflexivity.
  - destruct (sentiment_cases (size (words ∩ Mock.positive_words))
                (size (words ∩ Mock.negative_words))) as (label & c & -> & Hl & Hc).
    by exists label, c.
Qed.

Lemma C4_witness :
  ∃ c, Mock.process_query Mock.new_SemanticsAnalyzer (PStr "What a GREAT day") []
       = (Ret (Mock.result_dict ("Sentiment: POSITIVE (confidence: "
                                   +:+ PyVal.format_pct c +:+ ")")), []).
Proof.
  refine (proj1 (C4_semantics_labels "What a GREAT day" []) _ _).
  - exists "great". split.
    + apply (bool_decide_unpack _). vm_compute. exact I.
    + apply (bool_decide_unpack _). vm_compute. exact I.
  - intros w Hw Hneg.
    assert (Mock.words_of "What a GREAT day" ∩ Mock.negative_words = ∅) as Hempty.
    { apply (bool_decide_unpack _). vm_compute. exact I. }
    apply (not_elem_of_empty (C:=gset string) w). rewrite <-Hempty.
    apply elem_of_intersection. by split.
Defined.

(** C5. Whatever the payload and the state of the random source, the
    result of the mock ImageClassifier is ["I see:\n"] followed by exactly
    three lines ["- label: pct\n"], each for one of the six categories with
    its score printed as a percentage, the scores not increasing from one
    line to the next. *)
Theorem C5_image_classifier_lines (image_data : pyval) (g : Random.rng) :
  ∃ l1 s1 l2 s2 l3 s3 g',
    Mock.process_query Mock.ImageClassifier image_data g
    = (Ret (Mock.result_dict
              ("I see:" +:+ nl
               +:+ ("- " +:+ l1 +:+ ": " +:+ PyVal.format_pct s1 +:+ nl)
               +:+ ("- " +:+ l2 +:+ ": " +:+ PyVal.format_pct s2 +:+ nl)
               +:+ ("- " +:+ l3 +:+ ": " +:+ PyVal.format_pct s3 +:+ nl))), g') ∧
    (l1, s1) ∈ Mock.categories ∧ (l2, s2) ∈ Mock.categories ∧
    (l3, s3) ∈ Mock.categories ∧
    (s2 ≤ s1)%N ∧ (s3 ≤ s2)%N.
Proof.
  destruct (ImageClassifier_result image_data g)
    as ([l1 s1] & [l2 s2] & [l3 s3] & g' & Hq & H1 & H2 & H3 & H12 & H23).
  exists l1, s1, l2, s2, l3, s3, g'.
  rewrite Hq, label_lines_three. done.
Qed.

(** C6 (as amended).  The summary of the mock TextSummarizer is no longer
    than the input, except for an input that has no sentence terminator
    (none of [.], [!], [?]) and no white space at either end: for such an
    input it is the input followed by a full stop.  The summary has no more
    sentences than the input, sentences being counted as the summarizer
    counts them, and it is not empty when the input has a sentence. *)
Theorem C6_summary_bounds (text : string) (g : Random.rng) :
  ∃ summary,
    Mock.process_query Mock.TextSummarizer (PStr text) g
    = (Ret (Mock.result_dict summary), g) ∧
    (Mock.has_terminator text = true ∨ PyStr.strip text ≠ text →
     String.length summary ≤ String.length text) ∧
    (Mock.has_terminator text = false → PyStr.strip text = text →
     summary = text +:+ ".") ∧
    length (Mock.sentences_of summary) ≤ length (Mock.sentences_of text) ∧
    (Mock.sentences_of text ≠ [] → summary ≠ "").
Proof.
  exists (Mock.summarize text).
  destruct (summarize_length text) as [Hlen Hterm].
  split_and!; [done| | | |].
  - destruct (Mock.has_terminator text) eqn:Ht; [by auto|].
    intros [?|Hstrip]; [done|].
    rewrite (summarize_plain text Ht), str_length_app. simpl.
    pose proof (strip_length text). pose proof (strip_length_eq text). 
    destruct (decide (String.length (PyStr.strip text) = String.length text)); [|lia].
    by destruct Hstrip; auto.
  - intros Ht Hstrip. by rewrite (summarize_plain text Ht), Hstrip.
  - unfold Mock.summarize. rewrite sentences_of_summary.
    + rewrite length_take. lia.
    + apply Forall_take, sentences_of_are_sentences.
  - intros _ Hempty. apply (f_equal String.length) in Hempty.
    unfold Mock.summarize in Hempty. rewrite str_length_app in Hempty.
    simpl in Hempty. lia.
Qed.

Lemma C6_witness :
  ∃ summary,
    Mock.process_query Mock.TextSummarizer (PStr "It rained. We stayed in!") []
    = (Ret (Mock.result_dict summary), []) ∧
    String.length summary ≤ 24 ∧ summary ≠ "".
Proof.
  destruct (C6_summary_bounds "It rained. We stayed in!" [])
    as (summary & Hq & Hlen & _ & _ & Hne).
  exists summary. split_and!.
  - exact Hq.
  - apply Hlen. left. reflexivity.
  - apply Hne. vm_compute. discriminate.
Defined.

(** The claim C6 fails as it is written: the summary of ["Hi"] is ["Hi."],
    which is longer than the input. *)
Lemma C6_counterexample :
  Mock.process_query Mock.TextSummarizer (PStr "Hi") []
  = (Ret (Mock.result_dict "Hi."), []) ∧
  ¬ (String.length "Hi." ≤ String.length "Hi").
Proof. split; [reflexivity|]. simpl. lia. Qed.

(** C7. For every string input and every state of the random source, so
    for every template or answer it can choose, the mock JokeGenerator,
    HaikuWriter and QuestionAnswerer each return a result that is not
    empty and has the input as a substring. *)
Theorem C7_generators_echo_input (text : string) (g : Random.rng) :
  Forall (λ t, ∃ result g',
            Mock.process_query t (PStr text) g = (Ret (Mock.result_dict result), g') ∧
            result ≠ "" ∧ PyStr.contains result text)
         [Mock.new_JokeGenerator; Mock.new_HaikuWriter; Mock.new_QuestionAnswerer].
Proof.
  repeat apply Forall_cons_2; [| | |apply Forall_nil_2].
  - destruct (JokeGenerator_result text g) as (joke & g' & Hq).
    eexists _, g'. split_and!; [exact Hq|done|].
    by exists "Here's a funny joke about ", (":" +:+ nl +:+ joke).
  - destruct (HaikuWriter_result text g) as (haiku & g' & Hq).
    eexists _, g'. split_and!; [exact Hq|done|].
    by exists "Write a haiku (5-7-5 syllables) about ", (":" +:+ nl +:+ haiku).
  - destruct (QuestionAnswerer_result text g) as (answer & g' & _ & Hq).
    eexists _, g'. split_and!; [exact Hq|done|].
    by exists "Question: ", (nl +:+ "Answer: " +:+ answer).
Qed.

(** C8. After any sequence of requests, the readiness probe of either
    variant answers with status 200, ["status": "ok"] and the six tool
    names in the order of the registry: no request changes the keys of
    [tools]. *)
Theorem C8_readiness_probe_lists_tools :
  let probe :=
    PDict [("status", PStr "ok");
           ("available_tools",
            PList [PStr "semantics"; PStr "image-classifier"; PStr "summarizer";
                   PStr "joke"; PStr "haiku"; PStr "question"])] in
  (∀ (g : Random.rng) (reqs : list Mock.request) (body_json : exc pyval),
     (Mock.handler {| Mock.method := "GET"; Mock.body_json := body_json |}
                   (Mock.serve reqs (Mock.startup g))).1
     = {| Mock.statusCode := 200; Mock.headers := Mock.json_headers;
          Mock.body := PyVal.json_dumps probe |}) ∧
  (∀ backend (process_query : Real.tool_class → pyval → M backend pyval)
     (b : backend) (reqs : list (exc pyval)),
     (Real.health_check backend
        (Real.serve backend process_query reqs (Real.startup backend b))).1
     = {| Real.status := 200; Real.json := probe |}).
Proof.
  intros probe. split.
  - intros g reqs body_json. unfold Mock.handler, Mock.handler_try. simpl.
    unfold bind, Mock.get_tools, ret. simpl. by rewrite serve_tools.
  - intros backend process_query b reqs. unfold Real.health_check. simpl.
    by rewrite real_serve_tools.
Qed.

(** C9. The result of the mock ImageClassifier does not depend on its
    payload: from the same state of the random source, any two payloads
    give the same result and the same next state. *)
Theorem C9_image_payload_ignored (payload1 payload2 : pyval) (g : Random.rng) :
  Mock.process_query Mock.ImageClassifier payload1 g
  = Mock.process_query Mock.ImageClassifier payload2 g.
Proof. reflexivity. Qed.

(** C10. For a request whose method is neither POST nor GET, the handler
    returns the status 405 with the plain body ["Method Not Allowed"] and
    leaves the state, with its log of [process_query] calls, as it was. *)
Theorem C10_method_not_allowed (req : Mock.request) (w : Mock.world) :
  Mock.method req ≠ "POST" → Mock.method req ≠ "GET" →
  Mock.handler req w
  = ({| Mock.statusCode := 405; Mock.headers := None; Mock.body := "Method Not Allowed" |},
     w).
Proof.
  intros Hpost Hget. unfold Mock.handler, Mock.handler_try.
  destruct (decide (Mock.method req = "POST")); [done|].
  destruct (decide (Mock.method req = "GET")); done.
Qed.

Lemma C10_witness :
  Mock.handler {| Mock.method := "DELETE"; Mock.body_json := Ret PNone |} (Mock.startup [])
  = ({| Mock.statusCode := 405; Mock.headers := None; Mock.body := "Method Not Allowed" |},
     Mock.startup []).
Proof.
  apply (C10_method_not_allowed
           {| Mock.method := "DELETE"; Mock.body_json := Ret PNone |} (Mock.startup []));
    discriminate.
Defined.


(** * Further properties *)

(** ** Sampling without replacement *)

Section SampleFacts.

Context {A : Type}.
Implicit Types (pool l : list A) (g : Random.rng).

Lemma insert_swap_perm pool j x y :
  pool !! j = Some x → x :: <[j:=y]> pool ≡ₚ y :: pool.
Proof.
  revert j. induction pool as [|z pool IH]; intros [|j] Hj; simplify_eq/=.
  - apply perm_swap.
  - rewrite perm_swap, (IH j Hj). apply perm_swap.
Qed.

(** One step of the pool loop: the element drawn and the pool that is
    left are the pool there was. *)
Lemma pool_step_perm pool m j x last :
  j < m → m ≤ length pool →
  pool !! j = Some x → pool !! (m - 1) = Some last →
  x :: take (m - 1) (<[j:=last]> pool) ≡ₚ take m pool.
Proof.
  intros Hj Hm Hx Hlast.
  replace m with (S (m - 1)) at 2 by lia.
  rewrite (take_S_r pool (m - 1) last Hlast).
  destruct (decide (j = m - 1)) as [->|Hne].
  - rewrite list_insert_id by done. simplify_eq.
    by rewrite Permutation_cons_append.
  - rewrite take_insert_lt by lia.
    rewrite insert_swap_perm by (rewrite lookup_take_lt by lia; done).
    by rewrite Permutation_cons_append.
Qed.

(** The elements drawn are elements of the pool, each taken as often as
    it is there at most. *)
Lemma sample_pool_submseteq pool m k g l g' :
  k ≤ m → m ≤ length pool →
  Random.sample_pool pool m k g = (Ret l, g') →
  l ⊆+ take m pool.
Proof.
  revert pool m g l g'. induction k as [|k IH]; intros pool m g l g' Hk Hm Hs.
  - simpl in Hs. injection Hs as <- <-. apply submseteq_nil_l.
  - simpl in Hs.
    destruct (randbelow_spec m g ltac:(lia)) as (j & g1 & Hj & Hlt).
    unfold bind at 1 in Hs. rewrite Hj in Hs.
    destruct (pool !! j) as [x|] eqn:Hx; [|done].
    destruct (pool !! (m - 1)) as [last|] eqn:Hlast; [|done].
    unfold bind in Hs.
    destruct (Random.sample_pool (<[j:=last]> pool) (m - 1) k g1) as [[rest|e] g2] eqn:Hrest;
      [|done].
    injection Hs as <- <-.
    apply IH in Hrest; [|lia|rewrite length_insert; lia].
    rewrite <-(pool_step_perm pool m j x last Hlt Hm Hx Hlast).
    by apply submseteq_skip.
Qed.

Lemma submseteq_NoDup l1 l2 : l1 ⊆+ l2 → NoDup l2 → NoDup l1.
Proof.
  intros [k Hk]%submseteq_Permutation Hnd. rewrite Hk in Hnd.
  by apply NoDup_app in Hnd as [? _].
Qed.

(** A sample of a population without repetition has no repetition. *)
Lemma sample_NoDup population k g l g' :
  NoDup population →
  Random.sample population k g = (Ret l, g') → NoDup l.
Proof.
  intros Hnd. unfold Random.sample.
  destruct (decide (k ≤ length population)); [|done].
  intros Hs. apply sample_pool_submseteq in Hs; [|done|done].
  rewrite firstn_all in Hs. by eapply submseteq_NoDup.
Qed.

(** The pool loop consumes one draw for each element. *)
Lemma sample_pool_draws pool m k g r g' :
  Random.sample_pool pool m k g = (r, g') → ∃ n, n ≤ k ∧ g' = drop n g.
Proof.
  revert pool m g r g'. induction k as [|k IH]; intros pool m g r g' Hs.
  - simpl in Hs. injection Hs as <- <-. by exists 0.
  - simpl in Hs. unfold bind at 1 in Hs.
    assert (∃ j, Random.randbelow m g = (Ret j, drop 1 g)) as [j Hj].
    { destruct g; simpl; eauto. }
    rewrite Hj in Hs.
    destruct (pool !! j) as [x|]; [|injection Hs as <- <-; exists 1; split; [lia|done]].
    destruct (pool !! (m - 1)) as [last|];
      [|injection Hs as <- <-; exists 1; split; [lia|done]].
    unfold bind in Hs.
    destruct (Random.sample_pool _ _ k (drop 1 g)) as [[rest|e] g2] eqn:Hrest;
      apply IH in Hrest as (n & Hn & ->); injection Hs as <- <-;
      exists (S n); (split; [lia|]); by rewrite drop_drop.
Qed.

End SampleFacts.

(** ** The mock tools, in more detail *)

Section MockToolDetails.

Implicit Types (text : string) (g : Random.rng).

Lemma categories_NoDup : NoDup Mock.categories.
Proof. apply (bool_decide_unpack _). vm_compute. exact I. Qed.

(** No two categories share a label or a score. *)
Lemma categories_inj c c' :
  c ∈ Mock.categories → c' ∈ Mock.categories → c.1 = c'.1 ∨ c.2 = c'.2 → c = c'.
Proof.
  unfold Mock.categories. rewrite !elem_of_cons, !elem_of_nil.
  intros [->|[->|[->|[->|[->|[->|[]]]]]]] [->|[->|[->|[->|[->|[->|[]]]]]]] [?|?];
    simplify_eq/=; done.
Qed.

Lemma map_chars_app f s t :
  PyStr.map_chars f (s +:+ t) = PyStr.map_chars f s +:+ PyStr.map_chars f t.
Proof. induction s as [|c s IH]; [done|]. rewrite !str_app_cons. simpl. by rewrite IH. Qed.

Lemma lower_char_idemp c : PyStr.lower_char (PyStr.lower_char c) = PyStr.lower_char c.
Proof. destruct c as [[] [] [] [] [] [] [] []]; reflexivity. Qed.

Lemma lower_idemp s : PyStr.lower (PyStr.lower s) = PyStr.lower s.
Proof.
  unfold PyStr.lower. induction s as [|c s IH]; simpl; [done|].
  by rewrite lower_char_idemp, IH.
Qed.

Lemma split_ws_go_app cur s t :
  PyStr.split_ws_go cur (s +:+ " " +:+ t)
  = PyStr.split_ws_go cur s ++ PyStr.split_ws t.
Proof.
  revert cur. induction s as [|c s IH]; intros cur.
  - simpl. by destruct (decide (cur = "")).
  - rewrite str_app_cons. simpl. destruct (PyStr.isspace c).
    + destruct (decide (cur = "")); simpl; by rewrite IH.
    + apply IH.
Qed.

(** The words of two texts joined by a space are the words of both. *)
Lemma words_of_app s t :
  Mock.words_of (s +:+ " " +:+ t) = Mock.words_of s ∪ Mock.words_of t.
Proof.
  unfold Mock.words_of, PyStr.lower. rewrite !map_chars_app.
  change (PyStr.map_chars PyStr.lower_char " ") with " ".
  unfold PyStr.split_ws at 1. rewrite split_ws_go_app.
  by rewrite list_to_set_app_L.
Qed.

Lemma SemanticsAnalyzer_words text1 text2 g :
  Mock.words_of text1 = Mock.words_of text2 →
  Mock.process_query Mock.new_SemanticsAnalyzer (PStr text1) g
  = Mock.process_query Mock.new_SemanticsAnalyzer (PStr text2) g.
Proof. intros H. by rewrite !SemanticsAnalyzer_result, H. Qed.

Lemma confidence_text k :
  PyVal.format_pct (9500 `min` (6000 + N.of_nat k * 1000))
  = match k with
    | 0 => "60.00%" | 1 => "70.00%" | 2 => "80.00%" | 3 => "90.00%" | _ => "95.00%"
    end.
Proof.
  destruct k as [|[|[|[|k]]]]; try (vm_compute; reflexivity).
  replace (9500 `min` (6000 + N.of_nat (S (S (S (S k)))) * 1000))%N with 9500%N by lia.
  vm_compute. reflexivity.
Qed.

End MockToolDetails.

(** X1. The three lines of the mock ImageClassifier name three different
    categories, and their scores decrease strictly from one line to the
    next. *)
Theorem X1_image_lines_distinct (image_data : pyval) (g : Random.rng) :
  ∃ l1 s1 l2 s2 l3 s3 g',
    Mock.process_query Mock.ImageClassifier image_data g
    = (Ret (Mock.result_dict (Mock.label_lines [(l1, s1); (l2, s2); (l3, s3)])), g') ∧
    NoDup [l1; l2; l3] ∧ (s2 < s1)%N ∧ (s3 < s2)%N.
Proof.
  unfold Mock.process_query, Mock.ImageClassifier_process_query.
  destruct (sample_spec (λ c, c ∈ Mock.categories) Mock.categories 3 g)
    as (l & g' & Hl & Hlen & Hin).
  { by apply Forall_forall. }
  { simpl. lia. }
  pose proof (sample_NoDup _ _ _ _ _ categories_NoDup Hl) as Hnd.
  unfold bind. rewrite Hl.
  pose proof (sorted_desc_perm snd l) as Hperm.
  pose proof (sorted_desc_sorted snd l) as Hsorted.
  rewrite <-Hperm in Hin, Hnd.
  apply Permutation_length in Hperm. rewrite Hlen in Hperm.
  destruct (sorted_desc snd l) as [|[l1 s1] [|[l2 s2] [|[l3 s3] [|]]]]; try done.
  exists l1, s1, l2, s2, l3, s3, g'.
  apply Forall_cons in Hin as [H1 Hin].
  apply Forall_cons in Hin as [H2 Hin].
  apply Forall_cons in Hin as [H3 _].
  inversion_clear Hsorted as [|?? Hs23 Hh1]. inversion_clear Hh1 as [|?? H12].
  inversion_clear Hs23 as [|?? _ Hh2]. inversion_clear Hh2 as [|?? H23].
  apply NoDup_cons in Hnd as [Hn1 Hnd]. apply NoDup_cons in Hnd as [Hn2 _].
  apply not_elem_of_cons in Hn1 as [Hn12 Hn1].
  apply not_elem_of_cons in Hn1 as [Hn13 _].
  apply not_elem_of_cons in Hn2 as [Hn23 _].
  assert (∀ c c', c ∈ Mock.categories → c' ∈ Mock.categories → c ≠ c' →
                  c.1 ≠ c'.1 ∧ c.2 ≠ c'.2) as Hdiff.
  { intros c c' Hc Hc' Hne. split; intros Heq; apply Hne;
      apply categories_inj; auto. }
  destruct (Hdiff _ _ H1 H2 Hn12) as [? ?].
  destruct (Hdiff _ _ H1 H3 Hn13) as [? ?].
  destruct (Hdiff _ _ H2 H3 Hn23) as [? ?].
  simpl in *. split_and!; [done| |lia|lia].
  clear Hdiff.
  repeat (apply NoDup_cons; split); try apply NoDup_nil_2;
    repeat (apply not_elem_of_cons; split); try apply not_elem_of_nil; done.
Qed.

(** X2. The mock SemanticsAnalyzer decides by the numbers [p] and [n] of
    different positive and negative words in the lower-cased input: the
    larger number gives the label, with confidence 70%, 80%, 90% for one,
    two, three such words and 95% from four on; equal numbers, also when
    words of both kinds are present, give NEUTRAL at 50%. *)
Theorem X2_sentiment_rule (text : string) (g : Random.rng) :
  let p := size (Mock.words_of text ∩ Mock.positive_words) in
  let n := size (Mock.words_of text ∩ Mock.negative_words) in
  let confidence (k : nat) : string :=
    match k with
    | 0 => "60.00%" | 1 => "70.00%" | 2 => "80.00%" | 3 => "90.00%" | _ => "95.00%"
    end in
  Mock.process_query Mock.new_SemanticsAnalyzer (PStr text) g
  = (Ret (Mock.result_dict
            (if decide (n < p) then
               "Sentiment: POSITIVE (confidence: " +:+ confidence p +:+ ")"
             else if decide (p < n) then
               "Sentiment: NEGATIVE (confidence: " +:+ confidence n +:+ ")"
             else "Sentiment: NEUTRAL (confidence: 50.00%)")), g).
Proof.
  intros p n confidence. rewrite SemanticsAnalyzer_result. fold p n.
  unfold Mock.sentiment.
  destruct (decide (n < p)); [by rewrite confidence_text|].
  destruct (decide (p < n)); [by rewrite confidence_text|done].
Qed.

(** X3. The answer of the mock SemanticsAnalyzer depends on the set of
    words of the input only: two texts joined by a space give the same
    answer in either order, and a text joined to itself gives the answer
    of the text, so a repeated word counts once. *)
Theorem X3_sentiment_order_and_repetition (a b : string) (g : Random.rng) :
  Mock.process_query Mock.new_SemanticsAnalyzer (PStr (a +:+ " " +:+ b)) g
  = Mock.process_query Mock.new_SemanticsAnalyzer (PStr (b +:+ " " +:+ a)) g ∧
  Mock.process_query Mock.new_SemanticsAnalyzer (PStr (a +:+ " " +:+ a)) g
  = Mock.process_query Mock.new_SemanticsAnalyzer (PStr a) g.
Proof.
  split; apply SemanticsAnalyzer_words; rewrite !words_of_app.
  - apply (comm_L (∪)).
  - apply (idemp_L (∪)).
Qed.

(** X4. The mock SemanticsAnalyzer does not see letter case: an input and
    its lower-cased form get the same answer. *)
Theorem X4_sentiment_ignores_case (text : string) (g : Random.rng) :
  Mock.process_query Mock.new_SemanticsAnalyzer (PStr (PyStr.lower text)) g
  = Mock.process_query Mock.new_SemanticsAnalyzer (PStr text) g.
Proof.
  apply SemanticsAnalyzer_words. unfold Mock.words_of. by rewrite lower_idemp.
Qed.

Section GeneratorDetails.

Implicit Types (g : Random.rng).

(** The draw of [choice], as a step of a computation. *)
Lemma bind_choice {A B} (seq : list A) (k : A → M Random.rng B) g :
  seq ≠ [] →
  ∃ x g', x ∈ seq ∧ (let* y := Random.choice seq in k y) g = k x g'.
Proof.
  intros Hseq. destruct (choice_spec seq g Hseq) as (x & g' & Hc & Hin).
  exists x, g'. split; [done|]. unfold bind. by rewrite Hc.
Qed.

End GeneratorDetails.

Ltac pick_element :=
  repeat first [apply list_elem_of_here | apply list_elem_of_further].

(** X5. For every JSON value as input, the mock JokeGenerator returns the
    line ["Here's a funny joke about TOPIC:"] followed by one of its five
    jokes, TOPIC being [str] of the input, put in place of each
    [{topic}] as it is: braces in the input are not read as a format. *)
Theorem X5_joke_shape (input : pyval) (g : Random.rng) :
  let topic := PyVal.str input in
  ∃ joke g',
    joke ∈ [ "Why did the " +:+ topic +:+ " cross the road? To get to the other side!";
             "What do you call a " +:+ topic +:+ " that can't stop talking? A chatter-"
               +:+ topic +:+ "!";
             "How many " +:+ topic
               +:+ "s does it take to change a lightbulb? Just one, but it takes forever!";
             "A " +:+ topic +:+ " walks into a bar. The bartender says, 'We don't serve "
               +:+ topic +:+ "s here!'";
             "What's a " +:+ topic
               +:+ "'s favorite type of music? Anything with a good beat!" ] ∧
    Mock.process_query Mock.new_JokeGenerator input g
    = (Ret (Mock.result_dict ("Here's a funny joke about " +:+ topic +:+ ":" +:+ nl +:+ joke)),
       g').
Proof.
  intros topic.
  unfold Mock.process_query, Mock.new_JokeGenerator, Mock.JokeGenerator_process_query.
  fold topic.
  destruct (bind_choice Mock.joke_templates
              (λ template,
                 let* joke := lift_exc (PyStr.format template [("topic", topic)]) in
                 ret (Mock.result_dict ("Here's a funny joke about " +:+ topic
                                          +:+ ":" +:+ nl +:+ joke))) g ltac:(done))
    as (t & g' & Hin & ->).
  unfold Mock.joke_templates in Hin. rewrite !elem_of_cons, elem_of_nil in Hin.
  destruct Hin as [->|[->|[->|[->|[->|[]]]]]];
    refine (ex_intro _ _ (ex_intro _ g' (conj _ eq_refl))); pick_element.
Qed.

(** X6. For every string input, the mock HaikuWriter returns the line
    ["Write a haiku (5-7-5 syllables) about TOPIC:"] with the input as it
    is, followed by one of its three haikus, in which the input appears
    capitalized: first character upper case, all others lower case. *)
Theorem X6_haiku_shape (text : string) (g : Random.rng) :
  let topic := PyStr.capitalize text in
  ∃ haiku g',
    haiku ∈ [ topic +:+ " shines bright" +:+ nl +:+ "In the quiet morning light" +:+ nl
                +:+ "Peace fills the new day";
              "Dancing " +:+ topic +:+ nl +:+ "Whispers secrets to the wind" +:+ nl
                +:+ "Nature's gentle song";
              topic +:+ " stands tall" +:+ nl +:+ "Silent witness to the world" +:+ nl
                +:+ "Timeless and serene" ] ∧
    Mock.process_query Mock.new_HaikuWriter (PStr text) g
    = (Ret (Mock.result_dict ("Write a haiku (5-7-5 syllables) about " +:+ text
                                +:+ ":" +:+ nl +:+ haiku)), g').
Proof.
  intros topic.
  unfold Mock.process_query, Mock.new_HaikuWriter, Mock.HaikuWriter_process_query.
  fold topic.
  destruct (bind_choice Mock.haiku_templates
              (λ template,
                 let* haiku := lift_exc (PyStr.format template [("topic", topic)]) in
                 ret (Mock.result_dict ("Write a haiku (5-7-5 syllables) about " +:+ text
                                          +:+ ":" +:+ nl +:+ haiku))) g ltac:(done))
    as (t & g' & Hin & ->).
  unfold Mock.haiku_templates in Hin. rewrite !elem_of_cons, elem_of_nil in Hin.
  destruct Hin as [->|[->|[->|[]]]];
    refine (ex_intro _ _ (ex_intro _ g' (conj _ eq_refl))); pick_element.
Qed.

(** X7. For every JSON value as input, the mock QuestionAnswerer returns
    ["Question: "], [str] of the input, a new line and ["Answer: "]
    followed by one of its answers, each of which begins with
    ["Because"]. *)
Theorem X7_question_shape (input : pyval) (g : Random.rng) :
  ∃ answer reason g',
    answer ∈ Mock.question_answers ∧ answer = "Because" +:+ reason ∧
    Mock.process_query Mock.new_QuestionAnswerer input g
    = (Ret (Mock.result_dict ("Question: " +:+ PyVal.str input +:+ nl
                                +:+ "Answer: " +:+ answer)), g').
Proof.
  unfold Mock.process_query, Mock.new_QuestionAnswerer, Mock.QuestionAnswerer_process_query.
  destruct (bind_choice Mock.question_answers
              (λ answer,
                 ret (Mock.result_dict ("Question: " +:+ PyVal.str input +:+ nl
                                          +:+ "Answer: " +:+ answer))) g ltac:(done))
    as (a & g' & Hin & ->).
  assert (∃ reason, a = "Because" +:+ reason) as [reason Hreason].
  { unfold Mock.question_answers in Hin. rewrite !elem_of_cons, elem_of_nil in Hin.
    destruct Hin as [->|[->|[->|[->|[->|[]]]]]]; by eexists. }
  by exists a, reason, g'.
Qed.

Section SummarizerDetails.

Implicit Types (s text : string) (ss : list string).

(** Every character of a piece is a character of the text, and is not the
    separator. *)
Lemma split_pieces_chars sep s :
  Forall (λ p, ∀ c, PyStr.has_char c p = true → PyStr.has_char c s = true ∧ c ≠ sep)
         (PyStr.split sep s).
Proof.
  induction s as [|d s IH]; simpl.
  - by repeat constructor.
  - destruct (decide (d = sep)) as [->|Hd].
    + constructor; [done|]. eapply Forall_impl; [exact IH|].
      intros p Hp c Hc. destruct (Hp c Hc) as [Hs Hne]. split; [|done].
      by destruct (decide (sep = c)).
    + destruct (PyStr.split sep s) as [|p ps]; simpl.
      * constructor; [|done]. intros c. simpl.
        destruct (decide (d = c)) as [->|]; [done|done].
      * inversion_clear IH as [|?? Hp Hps]. constructor.
        -- intros c. simpl. destruct (decide (d = c)) as [->|]; [done|]. apply Hp.
        -- eapply Forall_impl; [exact Hps|]. intros q Hq c Hc.
           destruct (Hq c Hc) as [Hs Hne]. split; [|done].
           by destruct (decide (d = c)).
Qed.

Lemma lstrip_blank s :
  (∀ c, PyStr.has_char c s = true → PyStr.isspace c = true) → PyStr.lstrip s = "".
Proof.
  induction s as [|d s IH]; simpl; [done|]. intros H.
  rewrite (H d) by (by destruct (decide (d = d))).
  apply IH. intros c Hc. apply H. by destruct (decide (d = c)).
Qed.

(** A text of white space and sentence terminators has no sentence. *)
Lemma sentences_of_blank text :
  (∀ c, PyStr.has_char c text = true →
        PyStr.isspace c = true ∨ c ∈ ["."; "!"; "?"]%char) →
  Mock.sentences_of text = [].
Proof.
  intros Hblank. unfold Mock.sentences_of.
  set (r := PyStr.replace "?" "." (PyStr.replace "!" "." text)).
  assert (∀ c, PyStr.has_char c r = true → c ≠ "."%char → PyStr.isspace c = true) as Hr.
  { intros c Hc Hdot. unfold r in Hc.
    destruct (decide (c = "?"%char)) as [->|Hq].
    { by rewrite has_char_replace_old in Hc. }
    rewrite has_char_replace_other in Hc by done.
    destruct (decide (c = "!"%char)) as [->|Hb].
    { by rewrite has_char_replace_old in Hc. }
    rewrite has_char_replace_other in Hc by done.
    destruct (Hblank c Hc) as [?|Hin]; [done|].
    rewrite !elem_of_cons, elem_of_nil in Hin.
    by destruct Hin as [->|[->|[->|[]]]]. }
  pose proof (split_pieces_chars "." r) as Hpieces.
  induction Hpieces as [|p ps Hp _ IH]; [done|].
  rewrite filter_cons.
  assert (PyStr.strip p = "") as Hstrip.
  { unfold PyStr.strip. rewrite lstrip_blank; [done|].
    intros c Hc. destruct (Hp c Hc). by apply Hr. }
  destruct (decide (PyStr.strip p ≠ "")); [done|]. exact IH.
Qed.

Lemma summary_count_cases n :
  3 `min` (1 `max` (n `div` 3)) = if decide (n < 6) then 1 else if decide (n < 9) then 2 else 3.
Proof.
  pose proof (Nat.div_mod_eq n 3). pose proof (Nat.mod_upper_bound n 3 ltac:(done)).
  repeat case_decide; lia.
Qed.

(** The sentences of the summary are the first sentences of the input. *)
Lemma sentences_of_summarize text :
  Mock.sentences_of (Mock.summarize text)
  = take (3 `min` (1 `max` (length (Mock.sentences_of text) `div` 3)))
         (Mock.sentences_of text).
Proof.
  unfold Mock.summarize. apply sentences_of_summary.
  apply Forall_take, sentences_of_are_sentences.
Qed.

Lemma has_char_join c sep ss :
  PyStr.has_char c sep = false → Forall (λ s, PyStr.has_char c s = false) ss →
  PyStr.has_char c (PyStr.join sep ss) = false.
Proof.
  intros Hsep. induction 1 as [|x [|y ss] Hx Hall IH]; [done|done|].
  change (PyStr.join sep (x :: y :: ss)) with (x +:+ sep +:+ PyStr.join sep (y :: ss)).
  by rewrite !has_char_app, Hx, Hsep, IH.
Qed.

End SummarizerDetails.

(** X8. The sentences of the summary of the mock TextSummarizer are the
    first sentences of the input, in their order: one of them when the
    input has fewer than six sentences, two when it has six to eight, three
    when it has nine or more. *)
Theorem X8_summary_is_a_prefix (text : string) (g : Random.rng) :
  let n := length (Mock.sentences_of text) in
  ∃ summary,
    Mock.process_query Mock.TextSummarizer (PStr text) g
    = (Ret (Mock.result_dict summary), g) ∧
    Mock.sentences_of summary
    = take (if decide (n < 6) then 1 else if decide (n < 9) then 2 else 3)
           (Mock.sentences_of text).
Proof.
  intros n. exists (Mock.summarize text). split; [done|].
  by rewrite sentences_of_summarize, summary_count_cases.
Qed.

(** X9. The summary of the mock TextSummarizer ends with a full stop and
    has no exclamation mark and no question mark: the terminators of the
    input are all written as full stops. *)
Theorem X9_summary_punctuation (text : string) (g : Random.rng) :
  ∃ body,
    Mock.process_query Mock.TextSummarizer (PStr text) g
    = (Ret (Mock.result_dict (body +:+ ".")), g) ∧
    PyStr.has_char "!"%char (body +:+ ".") = false ∧
    PyStr.has_char "?"%char (body +:+ ".") = false.
Proof.
  eexists. split; [reflexivity|].
  pose proof (sentences_of_are_sentences text) as Hall.
  apply (Forall_take _ (3 `min` (1 `max` (length (Mock.sentences_of text) `div` 3))))
    in Hall.
  rewrite !has_char_app. split.
  - rewrite has_char_join; [done|done|].
    eapply Forall_impl; [exact Hall|]. by intros s (_ & _ & _ & ? & _).
  - rewrite has_char_join; [done|done|].
    eapply Forall_impl; [exact Hall|]. by intros s (_ & _ & _ & _ & ?).
Qed.

(** X10. For an input made of white space and sentence terminators only,
    the empty input among them, the summary of the mock TextSummarizer is
    a lone full stop. *)
Theorem X10_summary_of_blank_input (text : string) (g : Random.rng) :
  (∀ c, PyStr.has_char c text = true →
        PyStr.isspace c = true ∨ c ∈ ["."; "!"; "?"]%char) →
  Mock.process_query Mock.TextSummarizer (PStr text) g = (Ret (Mock.result_dict "."), g).
Proof.
  intros Hblank. rewrite TextSummarizer_result. unfold Mock.summarize.
  by rewrite (sentences_of_blank text Hblank).
Qed.

Lemma X10_witness :
  Mock.process_query Mock.TextSummarizer (PStr " ?! .. ") [] = (Ret (Mock.result_dict "."), []).
Proof.
  apply (X10_summary_of_blank_input " ?! .. " []).
  intros c Hc. simpl in Hc.
  repeat match type of Hc with
         | context [decide (?a = c)] =>
             destruct (decide (a = c)) as [<-|];
             [first [by left | right; rewrite !elem_of_cons; tauto]|]
         end.
  done.
Defined.

(** X11. Summarizing a summary keeps its first sentence only: the summary
    of the summary of an input is the first sentence of the input followed
    by a full stop, and a lone full stop when the input has no sentence. *)
Theorem X11_summary_of_a_summary (text : string) (g : Random.rng) :
  ∃ summary,
    Mock.process_query Mock.TextSummarizer (PStr text) g
    = (Ret (Mock.result_dict summary), g) ∧
    Mock.process_query Mock.TextSummarizer (PStr summary) g
    = (Ret (Mock.result_dict
              match Mock.sentences_of text with
              | [] => "."
              | first :: _ => first +:+ "."
              end), g).
Proof.
  exists (Mock.summarize text). split; [done|].
  rewrite TextSummarizer_result. unfold Mock.summarize at 1.
  rewrite sentences_of_summarize.
  set (ss := Mock.sentences_of text).
  set (c := 3 `min` (1 `max` (length ss `div` 3))).
  assert (length (take c ss) ≤ 3) as Hle by (rewrite length_take; lia).
  assert (1 ≤ c) as Hc by lia.
  replace (3 `min` (1 `max` (length (take c ss) `div` 3))) with 1.
  2:{ pose proof (Nat.div_mod_eq (length (take c ss)) 3).
      pose proof (Nat.mod_upper_bound (length (take c ss)) 3 ltac:(done)). lia. }
  rewrite take_take. replace (1 `min` c) with 1 by lia.
  by destruct ss.
Qed.

(** ** The dispatchers, in more detail *)

Section DispatcherDetails.

Implicit Types (w : Mock.world) (d : list (string * pyval)) (g : Random.rng).

Lemma JokeGenerator_any (input : pyval) g :
  ∃ result g',
    Mock.process_query Mock.new_JokeGenerator input g = (Ret (Mock.result_dict result), g').
Proof.
  unfold Mock.process_query, Mock.new_JokeGenerator, Mock.JokeGenerator_process_query.
  destruct (choice_spec Mock.joke_templates g ltac:(done)) as (t & g' & Ht & Hin).
  destruct (joke_templates_format t (PyVal.str input) Hin) as [joke Hjoke].
  unfold bind at 1. rewrite Ht. unfold bind, lift_exc. rewrite Hjoke. by eexists _, _.
Qed.

Lemma QuestionAnswerer_any (input : pyval) g :
  ∃ result g',
    Mock.process_query Mock.new_QuestionAnswerer input g
    = (Ret (Mock.result_dict result), g').
Proof.
  unfold Mock.process_query, Mock.new_QuestionAnswerer, Mock.QuestionAnswerer_process_query.
  destruct (choice_spec Mock.question_answers g ltac:(done)) as (a & g' & Ha & _).
  unfold bind. rewrite Ha. by eexists _, _.
Qed.

(** The [process_query] of the three tools that call a [str] method on
    their input, on an input that is not a string. *)
Lemma process_query_not_str name t attr (input : pyval) g :
  (name, t, attr) ∈ [ ("semantics", Mock.new_SemanticsAnalyzer, "lower");
                      ("summarizer", Mock.TextSummarizer, "replace");
                      ("haiku", Mock.new_HaikuWriter, "capitalize") ] →
  (∀ s, input ≠ PStr s) →
  ∃ g', Mock.process_query t input g = (Raise (PyVal.no_attribute input attr), g').
Proof.
  rewrite !elem_of_cons, elem_of_nil.
  intros [H|[H|[H|[]]]] Hstr; injection H as -> -> ->.
  - exists g. by destruct input; try done; destruct (Hstr s).
  - exists g. by destruct input; try done; destruct (Hstr s).
  - unfold Mock.process_query, Mock.new_HaikuWriter, Mock.HaikuWriter_process_query.
    destruct (choice_spec Mock.haiku_templates g ltac:(done)) as (tpl & g' & Ht & _).
    exists g'. unfold bind. rewrite Ht.
    by destruct input; try done; destruct (Hstr s).
Qed.

End DispatcherDetails.

(** X12. The mock handler answers with one of the status codes 200, 400,
    405 and 500 only, and it sets the JSON content type header on the
    responses with status 200 and on no other; the Flask dispatcher
    answers with 200, 400 or 500 only. *)
Theorem X12_status_codes :
  (∀ req w,
     let resp := (Mock.handler req w).1 in
     Mock.statusCode resp ∈ [200; 400; 405; 500] ∧
     Mock.headers resp = if decide (Mock.statusCode resp = 200)
                         then Mock.json_headers else None) ∧
  (∀ backend (process_query : Real.tool_class → pyval → M backend pyval) data w,
     Real.status (Real.process_request backend process_query data w).1 ∈ [200; 400; 500]).
Proof.
  split.
  - intros req w. unfold Mock.handler, Mock.handler_try.
    destruct (decide (Mock.method req = "POST")).
    2:{ destruct (decide (Mock.method req = "GET")); simpl;
          (split; [rewrite !elem_of_cons; tauto|done]). }
    unfold bind, lift_exc, Mock.get_tools, ret.
    destruct (Mock.body_json req) as [v|?]; simpl;
      [|split; [rewrite !elem_of_cons; tauto|done]].
    destruct (PyVal.get v "tool") as [tool_name|?]; simpl;
      [|split; [rewrite !elem_of_cons; tauto|done]].
    destruct (PyVal.get v "input") as [user_input|?]; simpl;
      [|split; [rewrite !elem_of_cons; tauto|done]].
    destruct (PyVal.dict_contains _ _) as [[]|?]; simpl;
      try (split; [rewrite !elem_of_cons; tauto|done]).
    destruct (PyVal.dict_item _ _) as [t|?]; simpl;
      [|split; [rewrite !elem_of_cons; tauto|done]].
    destruct (Mock.invoke _ _ _ _) as [[result|?] w']; simpl;
      (split; [rewrite !elem_of_cons; tauto|done]).
  - intros backend process_query data w.
    unfold Real.process_request, Real.process_request_try.
    unfold bind, lift_exc, Real.get_tools, ret.
    destruct data as [v|?]; simpl; [|rewrite !elem_of_cons; tauto].
    destruct (PyVal.get v "tool") as [tool_name|?]; simpl; [|rewrite !elem_of_cons; tauto].
    destruct (PyVal.get v "input") as [user_input|?]; simpl;
      [|rewrite !elem_of_cons; tauto].
    destruct (PyVal.dict_contains _ _) as [[]|?]; simpl;
      try (rewrite !elem_of_cons; tauto).
    destruct (PyVal.dict_item _ _) as [t|?]; simpl; [|rewrite !elem_of_cons; tauto].
    destruct (Real.invoke _ _ _ _ _ _) as [[result|?] w']; simpl;
      rewrite !elem_of_cons; tauto.
Qed.

(** X13. When the body of a request decodes to a JSON value that is not an
    object (a list, a string, a number, [null], ...), both dispatchers
    answer with status 500 and the message of the AttributeError for the
    missing [get], and the state is unchanged. *)
Theorem X13_body_not_an_object (v : pyval) :
  (∀ d, v ≠ PDict d) →
  let e := Exn "AttributeError"
               ("'" +:+ PyVal.type_name v +:+ "' object has no attribute 'get'") in
  (∀ w, Mock.handler {| Mock.method := "POST"; Mock.body_json := Ret v |} w
        = (Mock.server_error e, w)) ∧
  (∀ backend (process_query : Real.tool_class → pyval → M backend pyval) w,
     Real.process_request backend process_query (Ret v) w = (Real.server_error e, w)).
Proof.
  intros Hv e. split; intros; destruct v; try done; by destruct (Hv d).
Qed.

Lemma X13_witness :
  Mock.handler {| Mock.method := "POST"; Mock.body_json := Ret (PStr "joke") |}
               (Mock.startup [])
  = (Mock.server_error (Exn "AttributeError" "'str' object has no attribute 'get'"),
     Mock.startup []).
Proof.
  refine (proj1 (X13_body_not_an_object (PStr "joke") _) (Mock.startup [])).
  discriminate.
Defined.

(** X14. When the [tool] field is a number or a boolean, both dispatchers
    answer with status 400 and ["Unknown tool: "] followed by [str] of the
    value; when it is a list or an object, which cannot be hashed, the
    membership test raises and they answer with status 500 and
    ["unhashable type: 'list'"] or ["unhashable type: 'dict'"].  In both
    cases no [process_query] is called: the state is unchanged. *)
Theorem X14_tool_field_not_a_string (d : list (string * pyval)) :
  let tool_name := PyVal.dict_get d "tool" in
  (∀ s, tool_name ≠ PStr s) →
  let client_message := "Unknown tool: " +:+ PyVal.str tool_name in
  let server_message := "unhashable type: '" +:+ PyVal.type_name tool_name +:+ "'" in
  (∀ w,
     Mock.handler (Mock.post d) w
     = (if PyVal.hashable tool_name
        then {| Mock.statusCode := 400; Mock.headers := None;
                Mock.body := PyVal.json_dumps (PDict [("error", PStr client_message)]) |}
        else Mock.server_error (Exn "TypeError" server_message), w)) ∧
  (∀ backend (process_query : Real.tool_class → pyval → M backend pyval) w,
     Real.process_request backend process_query (Ret (PDict d)) w
     = (if PyVal.hashable tool_name
        then {| Real.status := 400; Real.json := PDict [("error", PStr client_message)] |}
        else Real.server_error (Exn "TypeError" server_message), w)).
Proof.
  intros tool_name Hstr client_message server_message.
  assert (∀ V (reg : list (string * V)),
            PyVal.dict_contains reg tool_name
            = if PyVal.hashable tool_name then Ret false
              else Raise (PyVal.unhashable tool_name)) as Hcontains.
  { intros V reg. destruct tool_name; try done. by destruct (Hstr s). }
  split.
  - intros w. unfold Mock.handler, Mock.handler_try, Mock.post. simpl.
    unfold bind, lift_exc, Mock.get_tools. simpl. fold tool_name.
    rewrite Hcontains. by destruct (PyVal.hashable tool_name).
  - intros backend process_query w. unfold Real.process_request, Real.process_request_try.
    unfold bind, lift_exc, Real.get_tools. simpl. fold tool_name.
    rewrite Hcontains. by destruct (PyVal.hashable tool_name).
Qed.

Lemma X14_witness :
  Mock.handler (Mock.post [("tool", PList [PStr "joke"]); ("input", PStr "cat")])
               (Mock.startup [3])
  = (Mock.server_error (Exn "TypeError" "unhashable type: 'list'"), Mock.startup [3]).
Proof.
  refine (proj1 (X14_tool_field_not_a_string
                   [("tool", PList [PStr "joke"]); ("input", PStr "cat")] _)
            (Mock.startup [3])).
  discriminate.
Defined.

(** X15. The tools [semantics], [summarizer] and [haiku] call a method of
    [str] on their input first ([lower], [replace], [capitalize]): when the
    [input] field is absent or is not a string, the mock handler answers
    with status 500 and the message of the AttributeError that names the
    type of the input and the method. *)
Theorem X15_input_not_a_string
    (name attr : string) (t : Mock.tool) (d : list (string * pyval)) (w : Mock.world) :
  (name, t, attr) ∈ [ ("semantics", Mock.new_SemanticsAnalyzer, "lower");
                      ("summarizer", Mock.TextSummarizer, "replace");
                      ("haiku", Mock.new_HaikuWriter, "capitalize") ] →
  Mock.tools w = Mock.registry →
  PyVal.dict_get d "tool" = PStr name →
  (∀ s, PyVal.dict_get d "input" ≠ PStr s) →
  (Mock.handler (Mock.post d) w).1
  = Mock.server_error
      (Exn "AttributeError"
           ("'" +:+ PyVal.type_name (PyVal.dict_get d "input")
              +:+ "' object has no attribute '" +:+ attr +:+ "'")).
Proof.
  intros Hin Htools Hname Hinput.
  assert (PyVal.assoc (Mock.tools w) name = Some t) as Hassoc.
  { rewrite Htools. rewrite !elem_of_cons, elem_of_nil in Hin.
    by destruct Hin as [H|[H|[H|[]]]]; injection H as -> -> ->. }
  destruct (process_query_not_str name t attr _ (Mock.rng w) Hin Hinput) as [g' Hq].
  unfold Mock.handler. rewrite (handler_try_known d name t w Hname Hassoc).
  unfold bind, Mock.invoke. by rewrite Hq.
Qed.

Lemma X15_witness :
  (Mock.handler (Mock.post [("tool", PStr "semantics")]) (Mock.startup [])).1
  = Mock.server_error
      (Exn "AttributeError" "'NoneType' object has no attribute 'lower'").
Proof.
  refine (X15_input_not_a_string "semantics" "lower" Mock.new_SemanticsAnalyzer
            [("tool", PStr "semantics")] (Mock.startup []) _ eq_refl eq_refl _).
  - apply list_elem_of_here.
  - discriminate.
Defined.

(** X16. The tools [image-classifier], [joke] and [question] use no method
    of their input: for every value of the [input] field, also when the
    field is absent, the mock handler answers with status 200 and a
    [{"result": text}] body. *)
Theorem X16_input_of_any_type
    (name : string) (d : list (string * pyval)) (w : Mock.world) :
  name ∈ ["image-classifier"; "joke"; "question"] →
  Mock.tools w = Mock.registry →
  PyVal.dict_get d "tool" = PStr name →
  ∃ result,
    (Mock.handler (Mock.post d) w).1
    = {| Mock.statusCode := 200; Mock.headers := Mock.json_headers;
         Mock.body := PyVal.json_dumps (PDict [("result", PStr result)]) |}.
Proof.
  intros Hin Htools Hname.
  assert (∃ t, PyVal.assoc (Mock.tools w) name = Some t ∧
               ∃ result g', Mock.process_query t (PyVal.dict_get d "input") (Mock.rng w)
                            = (Ret (Mock.result_dict result), g'))
    as (t & Hassoc & result & g' & Hq).
  { rewrite Htools. rewrite !elem_of_cons, elem_of_nil in Hin.
    destruct Hin as [->|[->|[->|[]]]]; (eexists; split; [reflexivity|]).
    - destruct (ImageClassifier_result (PyVal.dict_get d "input") (Mock.rng w))
        as (?&?&?&?&H&_). by eexists _, _.
    - apply JokeGenerator_any.
    - apply QuestionAnswerer_any. }
  unfold Mock.handler. rewrite (handler_try_known d name t w Hname Hassoc).
  unfold bind, Mock.invoke. rewrite Hq. by exists result.
Qed.

Lemma X16_witness :
  ∃ result,
    (Mock.handler (Mock.post [("tool", PStr "question")]) (Mock.startup [2])).1
    = {| Mock.statusCode := 200; Mock.headers := Mock.json_headers;
         Mock.body := PyVal.json_dumps (PDict [("result", PStr result)]) |}.
Proof.
  refine (X16_input_of_any_type "question" [("tool", PStr "question")] (Mock.startup [2])
            _ eq_refl eq_refl).
  pick_element.
Defined.

(** ** The tools of the Flask variant *)

Section RealToolFacts.

Context {handle library bytes image : Type}.
Context (call : handle → RealTools.argument image → list (string * pyval) → M library pyval).
Context (b64decode : pyval → exc bytes).
Context (image_open : bytes → M library image).
Context (format_percent : pyval → exc string).

Abbreviation state := (RealTools.state handle library).
Abbreviation query pipeline :=
  (RealTools.process_query handle library bytes image pipeline call b64decode image_open
     format_percent).
Abbreviation ensure pipeline := (RealTools.ensure_model handle library pipeline).

Implicit Types (s : state) (c : Real.tool_class) (h : handle).
Implicit Types (pipeline : string → option string → M library handle).

Abbreviation quiet := (RealTools.quiet handle library).

Lemma quiet_ret {A} (a : A) : quiet (ret a).
Proof. by intros s. Qed.

Lemma quiet_lift_exc {A} (r : exc A) : quiet (lift_exc r).
Proof. by intros s. Qed.

Lemma quiet_in_library {A} (m : M library A) : quiet (RealTools.in_library _ _ m).
Proof.
  intros s. unfold RealTools.in_library. by destruct (m (RealTools.library_state _ _ s)).
Qed.

Lemma quiet_call_model c x kwargs :
  quiet (RealTools.call_model _ _ _ call c x kwargs).
Proof.
  intros s. unfold RealTools.call_model, bind, RealTools.get_model.
  destruct (RealTools.models _ _ s c); [|done].
  apply quiet_in_library.
Qed.

Lemma quiet_bind {A B} (m : M state A) (k : A → M state B) :
  quiet m → (∀ a, quiet (k a)) → quiet (let* a := m in k a).
Proof.
  intros Hm Hk s. unfold bind. specialize (Hm s).
  destruct (m s) as [[a|e] s1]; simpl in *; [|done].
  destruct (Hk a s1) as [H1 H2]. by rewrite H1, H2.
Qed.

(** Each [process_query] is [ensure_model] followed by a quiet rest, and
    the rest does not use [pipeline]. *)
Lemma process_query_split c (input : pyval) :
  ∃ rest : M state pyval,
    quiet rest ∧
    ∀ pipeline s, query pipeline c input s = (let* _ := ensure pipeline c in rest) s.
Proof.
  destruct c; (eexists; split; [|intros pipeline s; reflexivity]);
    repeat first [ apply quiet_call_model | apply quiet_lift_exc | apply quiet_ret
                 | apply quiet_in_library | apply quiet_bind; [|intros ?] ].
Qed.

Lemma ensure_model_loaded pipeline c h s :
  RealTools.models _ _ s c = Some h → ensure pipeline c s = (Ret (), s).
Proof.
  intros Hm. unfold RealTools.ensure_model, bind, RealTools.get_model. by rewrite Hm.
Qed.

(** What [ensure_model] does for a tool that is not loaded, by the result
    of [pipeline]. *)
Lemma ensure_model_unloaded pipeline c s :
  RealTools.models _ _ s c = None →
  ensure pipeline c s
  = match pipeline (RealTools.pipeline_task c) (RealTools.pipeline_model c)
            (RealTools.library_state _ _ s) with
    | (Ret h, l) =>
        (Ret (),
         {| RealTools.models := λ c', if decide (c' = c) then Some h
                                      else RealTools.models _ _ s c';
            RealTools.library_state := l;
            RealTools.stdout :=
              (RealTools.stdout _ _ s
                 ++ ["Loading " +:+ RealTools.display_name c +:+ "..."])
                ++ ["✓ " +:+ RealTools.display_name c +:+ " ready!"] |})
    | (Raise e, l) =>
        (Raise e,
         {| RealTools.models := RealTools.models _ _ s;
            RealTools.library_state := l;
            RealTools.stdout :=
              RealTools.stdout _ _ s
                ++ ["Loading " +:+ RealTools.display_name c +:+ "..."] |})
    end.
Proof.
  intros Hm. unfold RealTools.ensure_model, bind at 1, RealTools.get_model. rewrite Hm.
  unfold RealTools.init_model, bind, RealTools.print, RealTools.in_library,
    RealTools.set_model. simpl.
  by destruct (pipeline _ _ _) as [[h|e] l].
Qed.

(** A model that is loaded stays loaded through [ensure_model] of any
    tool. *)
Lemma ensure_model_keeps pipeline c c' h s :
  RealTools.models _ _ s c = Some h →
  RealTools.models _ _ (ensure pipeline c' s).2 c = Some h.
Proof.
  intros Hm. destruct (RealTools.models _ _ s c') as [h'|] eqn:Hc'.
  - by rewrite (ensure_model_loaded pipeline c' h' s Hc').
  - rewrite (ensure_model_unloaded pipeline c' s Hc').
    destruct (pipeline _ _ _) as [[h'|e] l]; simpl; [|done].
    destruct (decide (c = c')) as [->|]; [congruence|done].
Qed.

Lemma process_query_keeps pipeline c c' (input : pyval) h s :
  RealTools.models _ _ s c = Some h →
  RealTools.models _ _ (query pipeline c' input s).2 c = Some h.
Proof.
  intros Hm. destruct (process_query_split c' input) as (rest & Hquiet & Hsplit).
  rewrite Hsplit. unfold bind.
  pose proof (ensure_model_keeps pipeline c c' h s Hm) as Hkeep.
  destruct (ensure pipeline c' s) as [[[]|e] s1]; simpl in *; [|done].
  destruct (Hquiet s1) as [-> _]. done.
Qed.

(** The dispatcher reaches the state of the tools through [process_query]
    only. *)
Lemma process_request_models pipeline data (w : Real.world state) :
  Real.models _ (Real.process_request _ (query pipeline) data w).2 = Real.models _ w ∨
  ∃ c input,
    Real.models _ (Real.process_request _ (query pipeline) data w).2
    = (query pipeline c input (Real.models _ w)).2.
Proof.
  unfold Real.process_request, Real.process_request_try.
  unfold bind, lift_exc, Real.get_tools, ret.
  destruct data as [v|?]; [|by left].
  destruct (PyVal.get v "tool") as [tool_name|?]; [|by left].
  destruct (PyVal.get v "input") as [user_input|?]; [|by left].
  destruct (PyVal.dict_contains _ _) as [[]|?]; simpl; try by left.
  destruct (PyVal.dict_item _ _) as [t|?]; [|by left].
  right. exists t, user_input. unfold Real.invoke.
  by destruct (query pipeline t user_input (Real.models _ w)) as [[?|?] ?].
Qed.

End RealToolFacts.

Section ImagePayloadFacts.

Implicit Types (prefix payload rest : string).

Lemma image_payload_plain payload :
  PyStr.has_char ","%char payload = false →
  RealTools.image_payload (PStr payload) = Ret (PStr payload).
Proof. intros H. unfold RealTools.image_payload. simpl. by rewrite H. Qed.

(** With a comma in it, the payload is what stands between the first
    comma and the next one. *)
Lemma image_payload_after_comma prefix payload (tail : list string) rest :
  PyStr.has_char ","%char prefix = false →
  PyStr.split ","%char rest = payload :: tail →
  RealTools.image_payload (PStr (prefix +:+ "," +:+ rest)) = Ret (PStr payload).
Proof.
  intros Hprefix Hrest. unfold RealTools.image_payload. simpl.
  rewrite has_char_app. change ("," +:+ rest) with (String ","%char rest).
  simpl PyStr.has_char at 2. rewrite orb_true_r. simpl.
  by rewrite (split_app_sep "," prefix rest Hprefix), Hrest.
Qed.

End ImagePayloadFacts.

(** X17. A tool of the Flask variant whose model is loaded does not load
    it again: its [process_query] gives the same outcome whatever
    [pipeline] would do, it leaves every [model] attribute as it is and it
    prints nothing. *)
Theorem X17_loaded_model_is_reused
    {handle library bytes image : Type}
    (pipeline pipeline' : string → option string → M library handle)
    (call : handle → RealTools.argument image → list (string * pyval) → M library pyval)
    (b64decode : pyval → exc bytes) (image_open : bytes → M library image)
    (format_percent : pyval → exc string)
    (c : Real.tool_class) (input : pyval) (h : handle)
    (s : RealTools.state handle library) :
  RealTools.models _ _ s c = Some h →
  let outcome :=
    RealTools.process_query handle library bytes image pipeline call b64decode image_open
      format_percent c input s in
  outcome
  = RealTools.process_query handle library bytes image pipeline' call b64decode image_open
      format_percent c input s ∧
  RealTools.models _ _ outcome.2 = RealTools.models _ _ s ∧
  RealTools.stdout _ _ outcome.2 = RealTools.stdout _ _ s.
Proof.
  intros Hm outcome. unfold outcome.
  destruct (process_query_split call b64decode image_open format_percent c input)
    as (rest & Hquiet & Hsplit).
  rewrite !Hsplit. unfold bind.
  rewrite (ensure_model_loaded pipeline c h s Hm), (ensure_model_loaded pipeline' c h s Hm).
  split; [done|]. apply Hquiet.
Qed.

Lemma X17_witness :
  let s := {| RealTools.models := λ _, Some (); RealTools.library_state := ();
              RealTools.stdout := [] |} in
  let call := λ (_ : ()) (_ : RealTools.argument ()) (_ : list (string * pyval)) (l : ()),
                (Ret (PList [PDict [("generated_text", PStr "ha")]]), l) in
  RealTools.process_query () () () () (λ _ _ l, (Ret (), l)) call (λ _, Ret ())
    (λ _ l, (Ret (), l)) (λ _, Ret "1.00%") Real.JokeGenerator (PStr "cat") s
  = RealTools.process_query () () () () (λ _ _ l, (Raise (Exn "OSError" "offline"), l)) call
      (λ _, Ret ()) (λ _ l, (Ret (), l)) (λ _, Ret "1.00%") Real.JokeGenerator (PStr "cat") s.
Proof.
  intros s call.
  refine (proj1 (X17_loaded_model_is_reused _ _ call _ _ _ Real.JokeGenerator (PStr "cat")
                   () s _)).
  reflexivity.
Defined.

(** X18. When [pipeline] raises while a tool of the Flask variant loads its
    model, [process_query] raises the same exception after printing the
    ["Loading ..."] line only, and the [model] attribute stays [None]: the
    next call tries to load again. *)
Theorem X18_failed_load_is_not_stored
    {handle library bytes image : Type}
    (pipeline : string → option string → M library handle)
    (call : handle → RealTools.argument image → list (string * pyval) → M library pyval)
    (b64decode : pyval → exc bytes) (image_open : bytes → M library image)
    (format_percent : pyval → exc string)
    (c : Real.tool_class) (input : pyval) (e : exn) (l' : library)
    (s : RealTools.state handle library) :
  RealTools.models _ _ s c = None →
  pipeline (RealTools.pipeline_task c) (RealTools.pipeline_model c)
           (RealTools.library_state _ _ s) = (Raise e, l') →
  RealTools.process_query handle library bytes image pipeline call b64decode image_open
    format_percent c input s
  = (Raise e,
     {| RealTools.models := RealTools.models _ _ s;
        RealTools.library_state := l';
        RealTools.stdout :=
          RealTools.stdout _ _ s ++ ["Loading " +:+ RealTools.display_name c +:+ "..."] |}).
Proof.
  intros Hm Hload.
  destruct (process_query_split call b64decode image_open format_percent c input)
    as (rest & _ & Hsplit).
  rewrite Hsplit. unfold bind.
  by rewrite (ensure_model_unloaded pipeline c s Hm), Hload.
Qed.

Lemma X18_witness :
  RealTools.process_query () () () ()
    (λ _ _ l, (Raise (Exn "OSError" "offline"), l))
    (λ _ _ _ l, (Ret PNone, l)) (λ _, Ret ()) (λ _ l, (Ret (), l)) (λ _, Ret "1.00%")
    Real.TextSummarizer (PStr "a long text") (RealTools.initial () () ())
  = (Raise (Exn "OSError" "offline"),
     {| RealTools.models := λ _, None; RealTools.library_state := ();
        RealTools.stdout := ["Loading Text Summarizer..."] |}).
Proof.
  apply (X18_failed_load_is_not_stored (bytes:=()) (image:=())
           (λ _ _ l, (Raise (Exn "OSError" "offline"), l))
           (λ _ _ _ l, (Ret PNone, l)) (λ _, Ret ()) (λ _ l, (Ret (), l)) (λ _, Ret "1.00%")
           Real.TextSummarizer (PStr "a long text") (Exn "OSError" "offline") ()
           (RealTools.initial () () ()));
    reflexivity.
Defined.

(** X19. The first [process_query] of a tool of the Flask variant whose
    [pipeline] call succeeds stores the loaded model in the tool, touches
    the [model] attribute of no other tool, and prints the two lines
    ["Loading ..."] and ["... ready!"], whether or not the rest of the call
    succeeds. *)
Theorem X19_first_use_loads_the_model
    {handle library bytes image : Type}
    (pipeline : string → option string → M library handle)
    (call : handle → RealTools.argument image → list (string * pyval) → M library pyval)
    (b64decode : pyval → exc bytes) (image_open : bytes → M library image)
    (format_percent : pyval → exc string)
    (c : Real.tool_class) (input : pyval) (h : handle) (l' : library)
    (s : RealTools.state handle library) :
  RealTools.models _ _ s c = None →
  pipeline (RealTools.pipeline_task c) (RealTools.pipeline_model c)
           (RealTools.library_state _ _ s) = (Ret h, l') →
  let s' :=
    (RealTools.process_query handle library bytes image pipeline call b64decode image_open
       format_percent c input s).2 in
  RealTools.models _ _ s' c = Some h ∧
  (∀ c', c' ≠ c → RealTools.models _ _ s' c' = RealTools.models _ _ s c') ∧
  RealTools.stdout _ _ s'
  = RealTools.stdout _ _ s ++ [ "Loading " +:+ RealTools.display_name c +:+ "...";
                                "✓ " +:+ RealTools.display_name c +:+ " ready!" ].
Proof.
  intros Hm Hload s'. unfold s'.
  destruct (process_query_split call b64decode image_open format_percent c input)
    as (rest & Hquiet & Hsplit).
  rewrite Hsplit. unfold bind.
  rewrite (ensure_model_unloaded pipeline c s Hm), Hload.
  match goal with |- context [rest ?s1] => destruct (Hquiet s1) as [-> ->] end.
  simpl. split_and!.
  - by destruct (decide (c = c)).
  - intros c' Hne. by destruct (decide (c' = c)).
  - by rewrite <-app_assoc.
Qed.

Lemma X19_witness :
  RealTools.stdout _ _
    (RealTools.process_query () () () () (λ _ _ l, (Ret (), l))
       (λ _ _ _ l, (Ret PNone, l)) (λ _, Ret ()) (λ _ l, (Ret (), l)) (λ _, Ret "1.00%")
       Real.HaikuWriter (PStr "rain") (RealTools.initial () () ())).2
  = ["Loading Haiku Writer..."; "✓ Haiku Writer ready!"].
Proof.
  refine (proj2 (proj2 (X19_first_use_loads_the_model (bytes:=()) (image:=())
                          (λ _ _ l, (Ret (), l)) (λ _ _ _ l, (Ret PNone, l)) (λ _, Ret ())
                          (λ _ l, (Ret (), l)) (λ _, Ret "1.00%")
                          Real.HaikuWriter (PStr "rain") () ()
                          (RealTools.initial () () ()) _ _)));
    reflexivity.
Defined.

(** X20. In the Flask variant a model that is loaded stays loaded, and the
    same, through every later sequence of requests to the dispatcher,
    whichever tools they name and however they end. *)
Theorem X20_model_stays_loaded
    {handle library bytes image : Type}
    (pipeline : string → option string → M library handle)
    (call : handle → RealTools.argument image → list (string * pyval) → M library pyval)
    (b64decode : pyval → exc bytes) (image_open : bytes → M library image)
    (format_percent : pyval → exc string)
    (reqs : list (exc pyval)) (c : Real.tool_class) (h : handle)
    (w : Real.world (RealTools.state handle library)) :
  RealTools.models _ _ (Real.models _ w) c = Some h →
  RealTools.models _ _
    (Real.models _
       (Real.serve _
          (RealTools.process_query handle library bytes image pipeline call b64decode
             image_open format_percent) reqs w)) c = Some h.
Proof.
  revert w. induction reqs as [|data reqs IH]; intros w Hm; simpl; [done|].
  apply IH.
  destruct (process_request_models call b64decode image_open format_percent pipeline data w)
    as [->|(c' & input & ->)]; [done|].
  by apply process_query_keeps.
Qed.

Lemma X20_witness :
  let query :=
    RealTools.process_query () () () () (λ _ _ l, (Ret (), l))
      (λ _ _ _ l, (Ret PNone, l)) (λ _, Ret ()) (λ _ l, (Ret (), l)) (λ _, Ret "1.00%") in
  let w := Real.startup _ {| RealTools.models := λ _, Some (); RealTools.library_state := ();
                             RealTools.stdout := [] |} in
  RealTools.models _ _
    (Real.models _
       (Real.serve _ query
          [Ret (PDict [("tool", PStr "joke"); ("input", PStr "cat")]); Ret PNone] w))
    Real.JokeGenerator = Some ().
Proof.
  intros query w.
  refine (X20_model_stays_loaded (bytes:=()) (image:=()) _ _ _ _ _ _ Real.JokeGenerator () w _).
  reflexivity.
Defined.

(** X21. The ImageClassifier of the Flask variant decodes what stands
    between the first comma of its input and the next one: a data URL
    [prefix,payload] is treated as its payload alone, and anything after a
    second comma is not looked at. *)
Theorem X21_data_url_prefix_is_dropped
    {handle library bytes image : Type}
    (pipeline : string → option string → M library handle)
    (call : handle → RealTools.argument image → list (string * pyval) → M library pyval)
    (b64decode : pyval → exc bytes) (image_open : bytes → M library image)
    (format_percent : pyval → exc string)
    (prefix payload rest : string) (s : RealTools.state handle library) :
  PyStr.has_char ","%char prefix = false →
  PyStr.has_char ","%char payload = false →
  let classify (image_data : string) :=
    RealTools.process_query handle library bytes image pipeline call b64decode image_open
      format_percent Real.ImageClassifier (PStr image_data) s in
  classify (prefix +:+ "," +:+ payload) = classify payload ∧
  classify (prefix +:+ "," +:+ payload +:+ "," +:+ rest) = classify payload.
Proof.
  intros Hprefix Hpayload classify. unfold classify.
  unfold RealTools.process_query, RealTools.ImageClassifier_process_query.
  rewrite (image_payload_plain payload Hpayload).
  rewrite (image_payload_after_comma prefix payload [] payload Hprefix
             (split_no_sep "," payload Hpayload)).
  rewrite (image_payload_after_comma prefix payload (PyStr.split "," rest)
             (payload +:+ "," +:+ rest) Hprefix
             (split_app_sep "," payload rest Hpayload)).
  done.
Qed.

Lemma X21_witness :
  let classify :=
    RealTools.process_query () () () () (λ _ _ l, (Ret (), l))
      (λ _ _ _ l, (Ret (PList []), l)) (λ v, Raise (Exn "binascii.Error" (PyVal.str v)))
      (λ _ l, (Ret (), l)) (λ _, Ret "1.00%") Real.ImageClassifier in
  classify (PStr "data:image/png;base64,AAAA") (RealTools.initial () () ())
  = classify (PStr "AAAA") (RealTools.initial () () ()).
Proof.
  intros classify.
  refine (proj1 (X21_data_url_prefix_is_dropped (bytes:=()) (image:=()) _ _ _ _ _
                   "data:image/png;base64" "AAAA" "" (RealTools.initial () () ()) _ _));
    reflexivity.
Defined.

(** ** Requests that do not depend on what came before *)

Section StatelessFacts.

(** The two tools that never call [random]. *)
Lemma process_query_no_random t (input : pyval) (g g' : Random.rng) :
  t ∈ [Mock.new_SemanticsAnalyzer; Mock.TextSummarizer] →
  (Mock.process_query t input g).1 = (Mock.process_query t input g').1.
Proof.
  rewrite !elem_of_cons, elem_of_nil. intros [->|[->|[]]]; destruct input; try done.
  simpl. unfold ret. by destruct (Mock.sentiment _ _).
Qed.

End StatelessFacts.

(** X22. The mock handler answers a request for [semantics] or for
    [summarizer] in the same way after any sequence of earlier requests and
    from any state of the random source: these two tools keep nothing and
    draw nothing. *)
Theorem X22_answers_do_not_depend_on_history
    (name : string) (d : list (string * pyval)) (reqs : list Mock.request)
    (g g' : Random.rng) :
  name ∈ ["semantics"; "summarizer"] →
  PyVal.dict_get d "tool" = PStr name →
  (Mock.handler (Mock.post d) (Mock.serve reqs (Mock.startup g))).1
  = (Mock.handler (Mock.post d) (Mock.startup g')).1.
Proof.
  intros Hin Hname.
  assert (∃ t, PyVal.assoc Mock.registry name = Some t ∧
               t ∈ [Mock.new_SemanticsAnalyzer; Mock.TextSummarizer]) as (t & Hassoc & Ht).
  { rewrite !elem_of_cons, elem_of_nil in Hin.
    destruct Hin as [->|[->|[]]]; (eexists; split; [reflexivity|]); pick_element. }
  unfold Mock.handler.
  rewrite (handler_try_known d name t (Mock.serve reqs (Mock.startup g)) Hname)
    by (by rewrite serve_tools).
  rewrite (handler_try_known d name t (Mock.startup g') Hname) by done.
  unfold bind, Mock.invoke.
  pose proof (process_query_no_random t (PyVal.dict_get d "input")
                (Mock.rng (Mock.serve reqs (Mock.startup g))) (Mock.rng (Mock.startup g')) Ht)
    as Hsame.
  destruct (Mock.process_query t _ (Mock.rng (Mock.serve _ _))) as [[r1|e1] g1];
    destruct (Mock.process_query t _ (Mock.rng (Mock.startup g'))) as [[r2|e2] g2];
    simpl in Hsame; by simplify_eq.
Qed.

Lemma X22_witness :
  (Mock.handler (Mock.post [("tool", PStr "summarizer"); ("input", PStr "One. Two.")])
     (Mock.serve [Mock.post [("tool", PStr "joke"); ("input", PStr "cat")]]
                 (Mock.startup [4; 1]))).1
  = (Mock.handler (Mock.post [("tool", PStr "summarizer"); ("input", PStr "One. Two.")])
       (Mock.startup [])).1.
Proof.
  refine (X22_answers_do_not_depend_on_history "summarizer"
            [("tool", PStr "summarizer"); ("input", PStr "One. Two.")]
            [Mock.post [("tool", PStr "joke"); ("input", PStr "cat")]] [4; 1] [] _ eq_refl).
  pick_element.
Defined.
